(** * Manifest builders: [create_soundlist.py] and [scripts/create_audiomap.py]

    A shallow embedding of the two build scripts and the properties of the
    manifest they write.

    Python [str] values are modelled as [string]: the UTF-8 bytes of the
    text.  Byte-wise comparison of UTF-8 agrees with Python's code-point
    comparison, and searching for the ASCII patterns [.wav] and [.mp3] in
    the bytes finds exactly the occurrences in the text, so [endswith],
    [replace], [in] and the sort order are those of the scripts.  Python
    [float] is Rocq's primitive binary64 [float]. *)

From Stdlib Require Import String Ascii List Bool Arith Lia.
From Stdlib Require Import Permutation Sorted DecimalString OrderedTypeEx.
From Stdlib Require Import PrimFloat.
Import ListNotations.
Open Scope list_scope.
Open Scope string_scope.

(** ** Python string and list primitives used by the scripts *)

Module Py.

(** [s.endswith(suffix)]: the last [len(suffix)] characters of [s] are
    [suffix]. *)
Definition endswith (s suffix : string) : bool :=
  (String.length suffix <=? String.length s)%nat &&
  (substring (String.length s - String.length suffix)
     (String.length suffix) s =? suffix).

(** [s.replace(old, new)] for a non-empty [old]: scan from the left; at
    every position where [old] starts, emit [new] and resume after the
    occurrence (the [skip] counter walks over its remaining characters);
    elsewhere copy the character. *)
Fixpoint replace_from (old new : string) (skip : nat) (s : string)
  : string :=
  match s with
  | EmptyString => EmptyString
  | String c s' =>
      match skip with
      | S k => replace_from old new k s'
      | O =>
          if prefix old s
          then new ++ replace_from old new (String.length old - 1) s'
          else String c (replace_from old new 0 s')
      end
  end.

(** With an empty [old], Python puts [new] before every character and at
    the end. *)
Fixpoint interleave (new s : string) : string :=
  match s with
  | EmptyString => new
  | String c s' => new ++ String c (interleave new s')
  end.

Definition replace (s old new : string) : string :=
  match old with
  | EmptyString => interleave new s
  | String _ _ => replace_from old new 0 s
  end.

(** [x in l] on a list of strings. *)
Definition str_in (x : string) (l : list string) : bool :=
  existsb (String.eqb x) l.

(** [str(n)] for a non-negative [int]. *)
Definition str_of_nat (n : nat) : string :=
  NilEmpty.string_of_uint (Nat.to_uint n).

(** [l.sort(key=...)]: keys are compared with [<] only and the sort is
    stable, which fixes the result; straight insertion from the right
    computes it. *)
Fixpoint insert_by {A : Type} (key : A -> string) (x : A) (l : list A)
  : list A :=
  match l with
  | [] => [x]
  | y :: l' =>
      if (key y <? key x) then y :: insert_by key x l' else x :: y :: l'
  end.

Definition sort_by {A : Type} (key : A -> string) (l : list A) : list A :=
  fold_right (insert_by key) [] l.

End Py.

(** ** Records of the manifest *)

(** [{"audio": ..., "icon": ...}] *)
Record SoundEntry := mkSound {
  audio : string;
  icon : option string
}.

(** [{"audio": ..., "duration": ...}] *)
Record BackingTrackEntry := mkBacking {
  bt_audio : string;
  duration : option float
}.

(** ** The sound loop, shared by both scripts

    The two scripts differ only in the prefix they put before a resolved
    icon ([icon_root]); the [audio] prefix is [sounds/] in both. *)

Section SoundLoop.

Variable icon_root : string.
Variable filenames : list string.

(** [icon_filename = filename.replace(".wav", f"__icon.{extension}")] *)
Definition icon_filename (filename extension : string) : string :=
  Py.replace filename ".wav" ("__icon." ++ extension).

(** [for extension in ...: if icon_filename in filenames: obj["icon"] =
    ...; break], started with [obj["icon"] = None]. *)
Fixpoint icon_loop (filename : string) (extensions : list string)
  : option string :=
  match extensions with
  | [] => None
  | extension :: rest =>
      if Py.str_in (icon_filename filename extension) filenames
      then Some (icon_root ++ icon_filename filename extension)
      else icon_loop filename rest
  end.

(** The [obj] appended for one [.wav] filename. *)
Definition sound_obj (filename : string) : SoundEntry :=
  {| audio := "sounds/" ++ filename;
     icon := icon_loop filename ["png"; "svg"] |}.

(** One iteration of [for filename in filenames]. *)
Definition sound_step (soundlist : list SoundEntry) (filename : string)
  : list SoundEntry :=
  if Py.endswith filename ".wav"
  then (soundlist ++ [sound_obj filename])%list
  else soundlist.

(** [soundlist] after the loop over a listing [l] (the icons are still
    looked up in the whole of [filenames]). *)
Definition sound_loop (l : list string) : list SoundEntry :=
  fold_left sound_step l [].

(** [soundlist] after [soundlist.sort(key=lambda x: x["audio"])]. *)
Definition sorted_soundlist : list SoundEntry :=
  Py.sort_by audio (sound_loop filenames).

End SoundLoop.

(** ** What lies outside the scripts

    The operating system and the two libraries are inputs of a run: what
    [os.listdir] answers for a directory, what
    [mutagen.mp3.MP3(path).info.length] answers for a path, whether
    [open(path, "w")] succeeds, whether [print(line)] succeeds (it raises
    when standard output cannot encode the line), and how the [json]
    encoder writes a string ([encode_basestring_ascii]) and a float
    ([float.__repr__]).  An exception is represented by its message,
    [str(e)]. *)

Definition Exception := string.

Record World := mkWorld {
  listdir : string -> Exception + list string;
  MP3_info_length : string -> Exception + float;
  open_error : string -> option Exception;
  print_error : string -> option Exception;
  encode_basestring_ascii : string -> string;
  float_repr : float -> string
}.

(** What a run changes: the lines printed, the content of the files on
    disk, and the file objects open for writing, each with its path and
    the text written to it that has not reached the disk yet. *)
Record State := mkState {
  stdout : list string;
  files : list (string * string);
  open_handles : list (string * string)
}.

Fixpoint read_file (name : string) (fs : list (string * string))
  : option string :=
  match fs with
  | [] => None
  | (n, content) :: fs' =>
      if n =? name then Some content else read_file name fs'
  end.

Definition set_file (name content : string) (fs : list (string * string))
  : list (string * string) :=
  (name, content) :: filter (fun p => negb (fst p =? name)) fs.

(** ** JSON values and [json.dump(..., indent=4)] *)

#[warnings="-register-all"]
Inductive json :=
| JNull
| JString (s : string)
| JFloat (f : float)
| JArray (items : list json)
| JObject (members : list (string * json)).

Definition newline : string := String "010" EmptyString.

Fixpoint spaces (n : nat) : string :=
  match n with
  | O => EmptyString
  | S n' => String " " (spaces n')
  end.

(** A line break followed by the indentation of nesting depth [level]. *)
Definition newline_indent (level : nat) : string :=
  newline ++ spaces (4 * level).

Section Encode.

Variable w : World.

(** The encoder with an indent: an empty container is written closed on
    the spot; otherwise every item starts on a line of its own, one
    level deeper, items are separated by [,], a key from its value by
    [: ], and the closing bracket is on a line of its own. *)
Fixpoint encode (level : nat) (v : json) {struct v} : string :=
  match v with
  | JNull => "null"
  | JString s => encode_basestring_ascii w s
  | JFloat f => float_repr w f
  | JArray [] => "[]"
  | JArray (x :: xs) =>
      "[" ++ newline_indent (S level) ++ encode (S level) x
      ++ (fix rest (l : list json) : string :=
            match l with
            | [] => EmptyString
            | y :: l' =>
                "," ++ newline_indent (S level) ++ encode (S level) y
                ++ rest l'
            end) xs
      ++ newline_indent level ++ "]"
  | JObject [] => "{}"
  | JObject ((k, x) :: xs) =>
      "{" ++ newline_indent (S level)
      ++ encode_basestring_ascii w k ++ ": " ++ encode (S level) x
      ++ (fix rest (l : list (string * json)) : string :=
            match l with
            | [] => EmptyString
            | (k', y) :: l' =>
                "," ++ newline_indent (S level)
                ++ encode_basestring_ascii w k' ++ ": "
                ++ encode (S level) y ++ rest l'
            end) xs
      ++ newline_indent level ++ "}"
  end.

Definition dumps (v : json) : string := encode 0 v.

End Encode.

Definition json_of_option_string (o : option string) : json :=
  match o with
  | None => JNull
  | Some s => JString s
  end.

Definition json_of_option_float (o : option float) : json :=
  match o with
  | None => JNull
  | Some f => JFloat f
  end.

Definition json_of_sound (e : SoundEntry) : json :=
  JObject [("audio", JString (audio e));
           ("icon", json_of_option_string (icon e))].

Definition json_of_backing (e : BackingTrackEntry) : json :=
  JObject [("audio", JString (bt_audio e));
           ("duration", json_of_option_float (duration e))].

(** ** Runs: state threaded through, exceptions propagated *)

Definition M (A : Type) : Type := State -> (Exception + A) * State.

Definition ret {A : Type} (x : A) : M A := fun st => (inr x, st).

Definition raise {A : Type} (e : Exception) : M A := fun st => (inl e, st).

Definition bind {A B : Type} (m : M A) (k : A -> M B) : M B :=
  fun st =>
    match m st with
    | (inl e, st') => (inl e, st')
    | (inr x, st') => k x st'
    end.

(** [try: body except Exception as e: handler]: what [body] did before it
    raised stays done. *)
Definition try_except {A : Type} (body : M A) (handler : Exception -> M A)
  : M A :=
  fun st =>
    match body st with
    | (inl e, st') => handler e st'
    | (inr x, st') => (inr x, st')
    end.

Declare Scope run_scope.
Delimit Scope run_scope with run.
Notation "x <- m ;; k" := (bind m (fun x => k))
  (at level 61, m at next level, right associativity) : run_scope.
Notation "m ;; k" := (bind m (fun _ => k))
  (at level 61, right associativity) : run_scope.
Open Scope run_scope.

(** [for x in l: body], the loop's local variable passed along. *)
Fixpoint for_in {A B : Type} (l : list A) (body : B -> A -> M B) (acc : B)
  : M B :=
  match l with
  | [] => ret acc
  | x :: l' => acc' <- body acc x ;; for_in l' body acc'
  end.

(** The ways a run changes the state. *)
Definition printed (lines : list string) (st : State) : State :=
  {| stdout := (stdout st ++ lines)%list;
     files := files st;
     open_handles := open_handles st |}.

Definition opened (name : string) (st : State) : State :=
  {| stdout := stdout st;
     files := set_file name EmptyString (files st);
     open_handles := (name, EmptyString) :: open_handles st |}.

Definition content (name : string) (st : State) : string :=
  match read_file name (files st) with
  | Some c => c
  | None => EmptyString
  end.

(** [text] added to what is pending in the newest file object on [fp]. *)
Fixpoint write_to (fp text : string) (handles : list (string * string))
  : list (string * string) :=
  match handles with
  | [] => []
  | (n, pending) :: rest =>
      if n =? fp then (n, pending ++ text) :: rest
      else (n, pending) :: write_to fp text rest
  end.

Definition written (fp text : string) (st : State) : State :=
  {| stdout := stdout st;
     files := files st;
     open_handles := write_to fp text (open_handles st) |}.

(** What is pending in the newest file object on [fp], and the file
    objects without it. *)
Fixpoint pending_of (fp : string) (handles : list (string * string))
  : option string :=
  match handles with
  | [] => None
  | (n, pending) :: rest =>
      if n =? fp then Some pending else pending_of fp rest
  end.

Fixpoint drop_handle (fp : string) (handles : list (string * string))
  : list (string * string) :=
  match handles with
  | [] => []
  | (n, pending) :: rest =>
      if n =? fp then rest else (n, pending) :: drop_handle fp rest
  end.

(** The file object on [fp] closed: what was pending is on disk and the
    object is gone. *)
Definition closed (fp : string) (st : State) : State :=
  match pending_of fp (open_handles st) with
  | Some pending =>
      {| stdout := stdout st;
         files := set_file fp (content fp st ++ pending) (files st);
         open_handles := drop_handle fp (open_handles st) |}
  | None => st
  end.

Section Actions.

Variable w : World.

Definition os_listdir (dir : string) : M (list string) :=
  fun st => (listdir w dir, st).

(** [MP3(filepath).info.length]: mutagen opens, reads and closes the file
    itself, whether it returns or raises; no file object reaches the
    script. *)
Definition MP3_length (filepath : string) : M float :=
  fun st => (MP3_info_length w filepath, st).

(** [open(name, "w")]: the file is created or truncated and the file
    object, named here by its path, is open from then on. *)
Definition open_w (name : string) : M string :=
  fun st =>
    match open_error w name with
    | Some e => (inl e, st)
    | None => (inr name, opened name st)
    end.

(** [json.dump(v, fp, indent=4)]: the text is written to [fp]. *)
Definition json_dump (v : json) (fp : string) : M unit :=
  fun st => (inr tt, written fp (dumps w v) st).

(** The end of a call that was given [open(...)] itself as an argument:
    nothing else refers to the file object, so the interpreter disposes
    of it as the call returns, which flushes and closes it. *)
Definition release (fp : string) : M unit :=
  fun st => (inr tt, closed fp st).

(** [print(line)]. *)
Definition print (line : string) : M unit :=
  fun st =>
    match print_error w line with
    | Some e => (inl e, st)
    | None => (inr tt, printed [line] st)
    end.

End Actions.

(** ** [create_soundlist.py] *)

Module create_soundlist.

Definition sound_dir : string := "sounds".
Definition output_filename : string := "soundlist.json".

(** The sorted [soundlist] for a listing. *)
Definition soundlist (filenames : list string) : list SoundEntry :=
  sorted_soundlist "sounds/" filenames.

(** [json.dump(soundlist, open(output_filename, "w"), indent=4)] is the
    three steps from [open_w] to [release]. *)
Definition main (w : World) : M unit :=
  filenames <- os_listdir w sound_dir ;;
  let soundlist := soundlist filenames in
  fp <- open_w w output_filename ;;
  json_dump w (JArray (map json_of_sound soundlist)) fp ;;
  release fp ;;
  print w ("Created " ++ output_filename ++ " with "
           ++ Py.str_of_nat (List.length soundlist) ++ " sounds").

End create_soundlist.

(** ** [scripts/create_audiomap.py] *)

Module create_audiomap.

Definition sound_dir : string := "../assets/sounds".
Definition backing_tracks_dir : string := "../assets/backing_tracks".
Definition output_filename : string := "audiomap.json".

(** The sorted [soundlist] for a listing. *)
Definition soundlist (filenames : list string) : list SoundEntry :=
  sorted_soundlist "assets/sounds/" filenames.

Definition warning (filename : string) (e : Exception) : string :=
  "Warning: Could not read duration for " ++ filename ++ ": " ++ e.

Definition backing_obj (filename : string) (d : option float)
  : BackingTrackEntry :=
  {| bt_audio := "assets/backing_tracks/" ++ filename; duration := d |}.

(** One iteration of [for filename in backing_filenames]. *)
Definition backing_step (w : World)
    (backing_tracks : list BackingTrackEntry) (filename : string)
  : M (list BackingTrackEntry) :=
  if Py.endswith filename ".mp3"
  then
    let filepath := backing_tracks_dir ++ "/" ++ filename in
    try_except
      (duration <- MP3_length w filepath ;;
       ret (backing_tracks ++ [backing_obj filename (Some duration)])%list)
      (fun e =>
         print w (warning filename e) ;;
         ret (backing_tracks ++ [backing_obj filename None])%list)
  else ret backing_tracks.

Definition audiomap (backing_tracks : list BackingTrackEntry)
    (soundlist : list SoundEntry) : json :=
  JObject [("backing_tracks", JArray (map json_of_backing backing_tracks));
           ("sounds", JArray (map json_of_sound soundlist))].

Definition summary (backing_tracks : list BackingTrackEntry)
    (soundlist : list SoundEntry) : string :=
  "Created " ++ output_filename ++ " with "
  ++ Py.str_of_nat (List.length backing_tracks) ++ " backing tracks and "
  ++ Py.str_of_nat (List.length soundlist) ++ " sounds".

(** [backing_tracks] after the loop and
    [backing_tracks.sort(key=lambda x: x["audio"])]. *)
Definition sorted_backing_tracks (w : World)
    (backing_filenames : list string) : M (list BackingTrackEntry) :=
  backing_tracks <- for_in backing_filenames (backing_step w) [] ;;
  ret (Py.sort_by bt_audio backing_tracks).

(** [json.dump(audiomap, open(output_filename, "w"), indent=4)] is the
    three steps from [open_w] to [release]. *)
Definition main (w : World) : M unit :=
  filenames <- os_listdir w sound_dir ;;
  backing_filenames <- os_listdir w backing_tracks_dir ;;
  let soundlist := soundlist filenames in
  backing_tracks <- sorted_backing_tracks w backing_filenames ;;
  fp <- open_w w output_filename ;;
  json_dump w (audiomap backing_tracks soundlist) fp ;;
  release fp ;;
  print w (summary backing_tracks soundlist).

(** The loop in closed form: the duration recorded for a filename, the
    entries in listing order, and the warnings in listing order. *)
Definition recorded_duration (w : World) (filename : string)
  : option float :=
  match MP3_info_length w (backing_tracks_dir ++ "/" ++ filename) with
  | inr d => Some d
  | inl _ => None
  end.

Definition backing_entries (w : World) (l : list string)
  : list BackingTrackEntry :=
  map (fun f => backing_obj f (recorded_duration w f))
      (filter (fun f => Py.endswith f ".mp3") l).

Definition backing_warnings (w : World) (l : list string) : list string :=
  flat_map
    (fun f =>
       match MP3_info_length w (backing_tracks_dir ++ "/" ++ f) with
       | inl e => [warning f e]
       | inr _ => []
       end)
    (filter (fun f => Py.endswith f ".mp3") l).

End create_audiomap.

(** ** Runs in closed form *)

(** The state after [json.dump(v, open(name, "w"), indent=4)] has
    returned: [text] is the content of the file [name], whatever it held
    before, and no file object is left. *)
Definition saved (name text : string) (st : State) : State :=
  {| stdout := stdout st;
     files := set_file name text (files st);
     open_handles := open_handles st |}.

(** Printing [lines] one after the other: the lines printed before the
    first one that raises, with its exception, if any raises. *)
Fixpoint first_failure (error : string -> option Exception)
    (lines : list string) : option (list string * Exception) :=
  match lines with
  | [] => None
  | line :: rest =>
      match error line with
      | Some e => Some ([], e)
      | None =>
          match first_failure error rest with
          | Some (done, e) => Some (line :: done, e)
          | None => None
          end
      end
  end.

(** ** Orders and the icon name as the specification words it *)

(** [x] may stand before [y] in a sequence sorted by [key]. *)
Definition key_le {A : Type} (key : A -> string) (x y : A) : Prop :=
  (key x <=? key y) = true.

Definition is_wav (f : string) : bool := Py.endswith f ".wav".

(** The entries of [l] that carry the [audio] path of the filename [f]. *)
Definition entries_for (f : string) (l : list SoundEntry)
  : list SoundEntry :=
  filter (fun e => audio e =? "sounds/" ++ f) l.

(** Every filename has as many entries in [soundlist] as it should: one
    if it is a listed [.wav] file, none otherwise; and [soundlist] holds
    nothing else. *)
Definition one_entry_per_wav (filenames : list string)
    (soundlist : list SoundEntry) : Prop :=
  (forall f,
      List.length (entries_for f soundlist)
      = if is_wav f && Py.str_in f filenames then 1 else 0)
  /\ (forall e, In e soundlist ->
        exists f, In f filenames /\ is_wav f = true
                  /\ audio e = "sounds/" ++ f)
  /\ List.length soundlist = List.length (filter is_wav filenames).

(** The icon of the entry [e] of [filename]: the png candidate wins when
    both candidates are listed, and there is no icon when neither is. *)
Definition png_preferred (icon_root : string) (filenames : list string)
    (filename : string) (e : SoundEntry) : Prop :=
  let png := icon_filename filename "png" in
  let svg := icon_filename filename "svg" in
  (In png filenames -> In svg filenames ->
   icon e = Some (icon_root ++ png) /\ icon e <> Some (icon_root ++ svg))
  /\ (~ In png filenames -> ~ In svg filenames -> icon e = None).

(** [s] without its last [n] characters. *)
Definition drop_last (n : nat) (s : string) : string :=
  substring 0 (String.length s - n) s.

(** The sibling icon of the specification: the sound's extension, its last
    four characters, gives way to the icon suffix. *)
Definition sibling_icon (filename extension : string) : string :=
  drop_last 4 filename ++ "__icon." ++ extension.

(** Wherever [old] occurs in [s], it is at the end. *)
Definition only_trailing (old s : string) : Prop :=
  forall a b, s = a ++ old ++ b -> b = EmptyString.

(** Two answers of [os.listdir] that differ at most in the order of the
    filenames. *)
Definition same_listing (a b : Exception + list string) : Prop :=
  match a, b with
  | inr l, inr l' => Permutation l l'
  | inl e, inl e' => e = e'
  | _, _ => False
  end.

(** The world [w] with another [os.listdir]. *)
Definition relisted (w : World)
    (listdir' : string -> Exception + list string) : World :=
  {| listdir := listdir';
     MP3_info_length := MP3_info_length w;
     open_error := open_error w;
     print_error := print_error w;
     encode_basestring_ascii := encode_basestring_ascii w;
     float_repr := float_repr w |}.

(** Two runs end alike and, when they complete, leave the same text in
    the file [name]. *)
Definition same_output (name : string) (r1 r2 : (Exception + unit) * State)
  : Prop :=
  fst r1 = fst r2
  /\ (fst r1 = inr tt ->
      read_file name (files (snd r1)) = read_file name (files (snd r2))).

(** Two runs complete or fail alike and, when they complete, leave the
    same text in the file [name]. *)
Definition same_manifest (name : string)
    (r1 r2 : (Exception + unit) * State) : Prop :=
  (fst r1 = inr tt <-> fst r2 = inr tt)
  /\ (fst r1 = inr tt ->
      read_file name (files (snd r1)) = read_file name (files (snd r2))).


(** ** Example worlds *)

Module Examples.

Definition quote : string := String "034" EmptyString.

Definition hex_digit (n : nat) : ascii :=
  nth n ["0"; "1"; "2"; "3"; "4"; "5"; "6"; "7"; "8"; "9";
         "a"; "b"; "c"; "d"; "e"; "f"]%char "0"%char.

Definition backslash : string := String "092" EmptyString.

(** The [json] encoder's escape of one character of ASCII text. *)
Definition escape (c : ascii) : string :=
  let n := nat_of_ascii c in
  if (n =? 34)%nat then backslash ++ quote
  else if (n =? 92)%nat then backslash ++ backslash
  else if (n =? 10)%nat then backslash ++ "n"
  else if (n =? 13)%nat then backslash ++ "r"
  else if (n =? 9)%nat then backslash ++ "t"
  else if (n =? 8)%nat then backslash ++ "b"
  else if (n =? 12)%nat then backslash ++ "f"
  else if (32 <=? n)%nat && (n <=? 126)%nat then String c EmptyString
  else backslash ++ "u00" ++ String (hex_digit (n / 16))
                              (String (hex_digit (n mod 16)) EmptyString).

Fixpoint escape_all (s : string) : string :=
  match s with
  | EmptyString => EmptyString
  | String c s' => escape c ++ escape_all s'
  end.

(** [encode_basestring_ascii] on ASCII text. *)
Definition encode_ascii (s : string) : string :=
  quote ++ escape_all s ++ quote.

Fixpoint lookup {A : Type} (k : string) (l : list (string * A))
  : option A :=
  match l with
  | [] => None
  | (k', v) :: l' => if k' =? k then Some v else lookup k l'
  end.

(** Bytes F8 to FF occur in no UTF-8 text: a name that holds one cannot
    be encoded. *)
Fixpoint encodable (s : string) : bool :=
  match s with
  | EmptyString => true
  | String c s' => (nat_of_ascii c <? 248)%nat && encodable s'
  end.

(** A standard output in UTF-8. *)
Definition utf8_stdout (line : string) : option Exception :=
  if encodable line then None
  else Some "'utf-8' codec can't encode character: surrogates not allowed".

(** A world given by its directories and by the durations of its
    readable tracks; every other track is corrupt, standard output is in
    UTF-8 and the only float around is written [12.5]. *)
Definition world (dirs : list (string * list string))
    (tracks : list (string * float)) : World :=
  {| listdir := fun d =>
       match lookup d dirs with
       | Some l => inr l
       | None => inl ("[Errno 2] No such file or directory: '" ++ d ++ "'")
       end;
     MP3_info_length := fun p =>
       match lookup p tracks with
       | Some d => inr d
       | None => inl "can't sync to MPEG frame"
       end;
     open_error := fun _ => None;
     print_error := utf8_stdout;
     encode_basestring_ascii := encode_ascii;
     float_repr := fun _ => "12.5" |}.

Definition empty_state : State :=
  {| stdout := []; files := []; open_handles := [] |}.

(** The sound directory of the specification's example. *)
Definition kick_snare : list string :=
  ["kick.wav"; "kick__icon.png"; "snare.wav"].

Definition simple_world : World :=
  world [("sounds", kick_snare)] [].

(** One corrupt and one valid track, as in the specification. *)
Definition extended_world : World :=
  world [("../assets/sounds", ["kick.wav"; "kick__icon.png";
                               "kick__icon.svg"; "snare.wav"]);
         ("../assets/backing_tracks", ["loop.mp3"; "notes.txt";
                                       "broken.mp3"])]
        [("../assets/backing_tracks/loop.mp3", 12.5%float)].

(** The same directories, enumerated in another order. *)
Definition extended_world_reordered : World :=
  world [("../assets/sounds", ["snare.wav"; "kick__icon.svg";
                               "kick__icon.png"; "kick.wav"]);
         ("../assets/backing_tracks", ["broken.mp3"; "notes.txt";
                                       "loop.mp3"])]
        [("../assets/backing_tracks/loop.mp3", 12.5%float)].

(** A backing-track directory with a corrupt file whose name is not
    UTF-8 (the byte FF followed by [.mp3]) listed before a valid one. *)
Definition unprintable_name : string := String "255" ".mp3".

Definition unprintable_world : World :=
  world [("../assets/sounds", kick_snare);
         ("../assets/backing_tracks", [unprintable_name; "loop.mp3"])]
        [("../assets/backing_tracks/loop.mp3", 12.5%float)].

(** No directory at all. *)
Definition bare_world : World := world [] [].

(** A sound directory, but no backing-track directory. *)
Definition half_world : World :=
  world [("../assets/sounds", kick_snare)] [].

End Examples.

(** ** Further notions *)

Definition is_mp3 (f : string) : bool := Py.endswith f ".mp3".

(** [x] must stand before [y] in a sequence sorted by [key]. *)
Definition key_lt {A : Type} (key : A -> string) (x y : A) : Prop :=
  (key x <? key y) = true.

(** No character of [s] is a dot. *)
Fixpoint dotless (s : string) : bool :=
  match s with
  | EmptyString => true
  | String c s' => negb (Ascii.eqb c ".") && dotless s'
  end.

(** An entry with its icon path, if any, put under [assets/]. *)
Definition under_assets (e : SoundEntry) : SoundEntry :=
  {| audio := audio e;
     icon := option_map (fun p => "assets/" ++ p) (icon e) |}.

(** The entries of [l] that carry the [audio] path of the backing-track
    filename [f]. *)
Definition backing_entries_for (f : string) (l : list BackingTrackEntry)
  : list BackingTrackEntry :=
  filter (fun e => bt_audio e =? "assets/backing_tracks/" ++ f) l.

(** The entries of [l] whose [duration] is null. *)
Definition null_durations (l : list BackingTrackEntry)
  : list BackingTrackEntry :=
  filter (fun e => match duration e with
                   | None => true
                   | Some _ => false
                   end) l.

(** The world [w] with other answers of the MP3 reader. *)
Definition with_durations (w : World)
    (lengths : string -> Exception + float) : World :=
  {| listdir := listdir w;
     MP3_info_length := lengths;
     open_error := open_error w;
     print_error := print_error w;
     encode_basestring_ascii := encode_basestring_ascii w;
     float_repr := float_repr w |}.

(** The world [w] with another standard output. *)
Definition with_stdout (w : World)
    (error : string -> option Exception) : World :=
  {| listdir := listdir w;
     MP3_info_length := MP3_info_length w;
     open_error := open_error w;
     print_error := error;
     encode_basestring_ascii := encode_basestring_ascii w;
     float_repr := float_repr w |}.

(** The world [w] in which no file can be opened for writing. *)
Definition read_only (w : World) (e : Exception) : World :=
  {| listdir := listdir w;
     MP3_info_length := MP3_info_length w;
     open_error := fun _ => Some e;
     print_error := print_error w;
     encode_basestring_ascii := encode_basestring_ascii w;
     float_repr := float_repr w |}.

(** * Properties *)

(** ** Strings *)

Section StringFacts.

Lemma append_empty_r (s : string) : s ++ EmptyString = s.
Proof. induction s as [|c s IH]; simpl; [reflexivity | now rewrite IH]. Qed.

Lemma append_assoc (a b c : string) : (a ++ b) ++ c = a ++ (b ++ c).
Proof. induction a as [|x a IH]; simpl; [reflexivity | now rewrite IH]. Qed.

Lemma length_append (a b : string) :
  String.length (a ++ b) = String.length a + String.length b.
Proof. induction a as [|x a IH]; simpl; [reflexivity | now rewrite IH]. Qed.

Lemma append_inv_head (a b c : string) : a ++ b = a ++ c -> b = c.
Proof.
  induction a as [|x a IH]; simpl; intros H; [assumption|].
  injection H as H. now apply IH.
Qed.

(** Two strings of one length at the head of equal strings are equal. *)
Lemma append_same_length (a b x y : string) :
  String.length a = String.length b -> a ++ x = b ++ y -> a = b /\ x = y.
Proof.
  revert b; induction a as [|c a IH]; intros [|d b]; simpl;
    try discriminate; intros Hlen H.
  - now split.
  - injection H as -> H. injection Hlen as Hlen.
    destruct (IH b Hlen H) as [-> ->]. now split.
Qed.

Lemma prefix_append (a b : string) : prefix a (a ++ b) = true.
Proof.
  induction a as [|c a IH]; simpl; [now destruct b|].
  destruct (ascii_dec c c); [assumption | congruence].
Qed.

Lemma prefix_split (a s : string) :
  prefix a s = true -> exists b, s = a ++ b.
Proof.
  revert s; induction a as [|c a IH]; intros s H.
  - now exists s.
  - destruct s as [|d s]; simpl in H; [discriminate|].
    destruct (ascii_dec c d) as [->|]; [|discriminate].
    destruct (IH s H) as [b ->]. now exists b.
Qed.

Lemma substring_append_skip (p s : string) (n : nat) :
  substring (String.length p) n (p ++ s) = substring 0 n s.
Proof. induction p as [|c p IH]; simpl; [reflexivity | assumption]. Qed.

Lemma substring_whole (s : string) : substring 0 (String.length s) s = s.
Proof. induction s as [|c s IH]; simpl; [reflexivity | now rewrite IH]. Qed.

Lemma substring_append_head (p s : string) :
  substring 0 (String.length p) (p ++ s) = p.
Proof.
  induction p as [|c p IH]; simpl; [now destruct s | now rewrite IH].
Qed.

Lemma substring_split (s : string) (k : nat) :
  k <= String.length s ->
  s = substring 0 k s ++ substring k (String.length s - k) s.
Proof.
  revert k; induction s as [|c s IH]; intros [|k] Hk; simpl in *;
    try lia; try reflexivity.
  - now rewrite substring_whole.
  - f_equal. apply IH. lia.
Qed.

Lemma endswith_append (p suffix : string) :
  Py.endswith (p ++ suffix) suffix = true.
Proof.
  unfold Py.endswith. rewrite length_append.
  replace (String.length p + String.length suffix - String.length suffix)
    with (String.length p) by lia.
  rewrite substring_append_skip, substring_whole, String.eqb_refl.
  rewrite andb_true_r. apply Nat.leb_le. lia.
Qed.

Lemma endswith_split (s suffix : string) :
  Py.endswith s suffix = true -> exists p, s = p ++ suffix.
Proof.
  unfold Py.endswith. intros H. apply andb_true_iff in H as [Hlen Heq].
  apply Nat.leb_le in Hlen. apply String.eqb_eq in Heq.
  exists (substring 0 (String.length s - String.length suffix) s).
  pose proof (substring_split s (String.length s - String.length suffix))
    as Hs.
  replace (String.length s - (String.length s - String.length suffix))
    with (String.length suffix) in Hs by lia.
  rewrite Heq in Hs. apply Hs. lia.
Qed.

Lemma drop_last_append (p suffix : string) :
  drop_last (String.length suffix) (p ++ suffix) = p.
Proof.
  unfold drop_last. rewrite length_append.
  replace (String.length p + String.length suffix - String.length suffix)
    with (String.length p) by lia.
  apply substring_append_head.
Qed.

Lemma str_in_iff (x : string) (l : list string) :
  Py.str_in x l = true <-> In x l.
Proof.
  unfold Py.str_in. rewrite existsb_exists. split.
  - intros [y [Hy Heq]]. apply String.eqb_eq in Heq. now subst.
  - intros H. exists x. split; [assumption | apply String.eqb_refl].
Qed.

Lemma str_in_perm (x : string) (l l' : list string) :
  Permutation l l' -> Py.str_in x l = Py.str_in x l'.
Proof.
  intros HP. apply eq_true_iff_eq. rewrite !str_in_iff.
  split; apply Permutation_in; [assumption | now apply Permutation_sym].
Qed.

End StringFacts.

(** ** The order on strings *)

Section StringOrder.

Lemma leb_refl (s : string) : (s <=? s) = true.
Proof.
  pose proof (proj2 (String_as_OT.cmp_eq s s) eq_refl) as H.
  unfold String_as_OT.cmp in H. unfold String.leb. now rewrite H.
Qed.

Lemma leb_trans (a b c : string) :
  (a <=? b) = true -> (b <=? c) = true -> (a <=? c) = true.
Proof.
  unfold String.leb. intros Hab Hbc.
  destruct (a ?= b) eqn:Eab; [| |discriminate].
  - apply String_as_OT.cmp_eq in Eab. now subst.
  - destruct (b ?= c) eqn:Ebc; [| |discriminate].
    + apply String_as_OT.cmp_eq in Ebc. subst. now rewrite Eab.
    + apply String_as_OT.cmp_lt in Eab, Ebc.
      pose proof (String_as_OT.lt_trans _ _ _ Eab Ebc) as Hac.
      apply String_as_OT.cmp_lt in Hac.
      unfold String_as_OT.cmp in Hac. now rewrite Hac.
Qed.

(** What the sort's [<] test says when it fails. *)
Lemma ltb_false_leb (a b : string) : (a <? b) = false -> (b <=? a) = true.
Proof.
  unfold String.ltb, String.leb. rewrite (String.compare_antisym b a).
  now destruct (a ?= b).
Qed.

Lemma ltb_true_leb (a b : string) : (a <? b) = true -> (a <=? b) = true.
Proof. unfold String.ltb, String.leb. now destruct (a ?= b). Qed.

End StringOrder.

(** ** The sort *)

Section Sort.

Context {A : Type} (key : A -> string).

Lemma key_le_total (x y : A) : key_le key x y \/ key_le key y x.
Proof. apply String.leb_total. Qed.

Lemma key_le_trans (x y z : A) :
  key_le key x y -> key_le key y z -> key_le key x z.
Proof. apply leb_trans. Qed.

Lemma insert_by_perm (x : A) (l : list A) :
  Permutation (Py.insert_by key x l) (x :: l).
Proof.
  induction l as [|y l IH]; simpl; [reflexivity|].
  destruct (key y <? key x); [|reflexivity].
  rewrite IH. apply perm_swap.
Qed.

Lemma sort_by_perm (l : list A) : Permutation (Py.sort_by key l) l.
Proof.
  induction l as [|x l IH]; simpl; [reflexivity|].
  rewrite insert_by_perm. now apply perm_skip.
Qed.

Lemma sort_by_in (x : A) (l : list A) : In x (Py.sort_by key l) <-> In x l.
Proof.
  split; apply Permutation_in;
    [apply sort_by_perm | apply Permutation_sym, sort_by_perm].
Qed.

Lemma sort_by_length (l : list A) :
  List.length (Py.sort_by key l) = List.length l.
Proof. apply Permutation_length, sort_by_perm. Qed.

Lemma insert_by_sorted (x : A) (l : list A) :
  StronglySorted (key_le key) l ->
  StronglySorted (key_le key) (Py.insert_by key x l).
Proof.
  induction 1 as [|y l Hl IH Hy]; simpl.
  - repeat constructor.
  - destruct (key y <? key x) eqn:E.
    + constructor; [assumption|].
      apply (Permutation_Forall (Permutation_sym (insert_by_perm x l))).
      constructor; [|assumption].
      now apply ltb_true_leb.
    + apply ltb_false_leb in E.
      constructor; [now constructor|].
      constructor; [assumption|].
      eapply Forall_impl; [|exact Hy].
      intros z Hz. now apply key_le_trans with y.
Qed.

Lemma sort_by_sorted (l : list A) :
  StronglySorted (key_le key) (Py.sort_by key l).
Proof.
  induction l as [|x l IH]; simpl; [constructor|].
  now apply insert_by_sorted.
Qed.

(** Two sorted arrangements of the same elements are equal as soon as
    no two distinct elements share a key. *)
Lemma sorted_unique (l1 l2 : list A) :
  (forall x y, In x l1 -> In y l1 -> key x = key y -> x = y) ->
  StronglySorted (key_le key) l1 ->
  StronglySorted (key_le key) l2 ->
  Permutation l1 l2 ->
  l1 = l2.
Proof.
  intros Hinj H1; revert l2.
  induction H1 as [|x l1 Hs1 IH Hx]; intros l2 H2 HP.
  - now apply Permutation_nil in HP.
  - destruct H2 as [|y l2 Hs2 Hy].
    + now apply Permutation_sym, Permutation_nil in HP.
    + assert (Hxy : x = y).
      { assert (Hin_y : In y (x :: l1))
          by (apply (Permutation_in _ (Permutation_sym HP)); now left).
        assert (Hin_x : In x (y :: l2))
          by (apply (Permutation_in _ HP); now left).
        destruct Hin_y as [|Hin_y]; [assumption|].
        destruct Hin_x as [|Hin_x]; [congruence|].
        rewrite Forall_forall in Hx, Hy.
        apply Hinj; [now left | now right |].
        apply String.leb_antisym; [now apply Hx | now apply Hy]. }
      subst y. f_equal.
      apply IH; [|assumption|now apply Permutation_cons_inv with x].
      intros a b Ha Hb. apply Hinj; now right.
Qed.

(** The sorted sequence does not depend on the order of the input. *)
Lemma sort_by_order_free (l l' : list A) :
  (forall x y, In x l -> In y l -> key x = key y -> x = y) ->
  Permutation l l' ->
  Py.sort_by key l = Py.sort_by key l'.
Proof.
  intros Hinj HP. apply sorted_unique.
  - intros x y Hx Hy. apply Hinj; now apply sort_by_in.
  - apply sort_by_sorted.
  - apply sort_by_sorted.
  - rewrite !sort_by_perm. assumption.
Qed.

End Sort.

(** ** Lists *)

Section ListFacts.

Context {A : Type}.

Lemma filter_perm (f : A -> bool) (l l' : list A) :
  Permutation l l' -> Permutation (filter f l) (filter f l').
Proof.
  induction 1 as [|x l l' HP IH|x y l|l l' l'' HP1 IH1 HP2 IH2]; simpl.
  - constructor.
  - destruct (f x); [now constructor | assumption].
  - destruct (f x), (f y); try reflexivity. apply perm_swap.
  - now transitivity (filter f l').
Qed.

End ListFacts.

(** ** [replace] *)

Section Replace.

Variables (o : ascii) (old' : string).
Let old := String o old'.

Lemma replace_from_skip (new s : string) (k : nat) :
  String.length s <= k -> Py.replace_from old new k s = EmptyString.
Proof.
  revert k; induction s as [|c s IH]; intros k Hk; [reflexivity|].
  simpl in Hk. destruct k as [|k]; [lia|]. simpl. apply IH. lia.
Qed.

(** Wherever [old] occurs at all, the results for two distinct
    replacements of one length are distinct. *)
Lemma replace_from_differs (new1 new2 a b : string) :
  String.length new1 = String.length new2 -> new1 <> new2 ->
  Py.replace_from old new1 0 (a ++ old ++ b)
  <> Py.replace_from old new2 0 (a ++ old ++ b).
Proof.
  intros Hlen Hneq. induction a as [|c a IH].
  - change (EmptyString ++ old ++ b) with (String o (old' ++ b)).
    cbn [Py.replace_from].
    change (String o (old' ++ b)) with (old ++ b).
    rewrite prefix_append. intros H.
    now apply append_same_length in H as [H _].
  - change (String c a ++ old ++ b) with (String c (a ++ old ++ b)).
    cbn [Py.replace_from].
    destruct (prefix old (String c (a ++ old ++ b))).
    + intros H. now apply append_same_length in H as [H _].
    + intros H. injection H as H. now apply IH.
Qed.

(** When [old] occurs at the end only, replacing it is cutting it off
    and appending the replacement. *)
Lemma replace_from_trailing (new p : string) :
  only_trailing old (p ++ old) ->
  Py.replace_from old new 0 (p ++ old) = p ++ new.
Proof.
  induction p as [|c p IH]; intros Honly.
  - change (EmptyString ++ old) with (String o old').
    cbn [Py.replace_from].
    change (String o old') with old.
    rewrite <- (append_empty_r old) at 2. rewrite prefix_append.
    rewrite replace_from_skip by (simpl; lia).
    now rewrite append_empty_r.
  - change (String c p ++ old) with (String c (p ++ old)).
    cbn [Py.replace_from].
    destruct (prefix old (String c (p ++ old))) eqn:E.
    + apply prefix_split in E as [b Hb].
      assert (b = EmptyString) as ->.
      { apply (Honly EmptyString b). exact Hb. }
      apply (f_equal String.length) in Hb.
      rewrite append_empty_r in Hb. simpl in Hb.
      rewrite length_append in Hb. simpl in Hb. lia.
    + simpl. f_equal. apply IH.
      intros a b Hab. apply (Honly (String c a) b).
      simpl. now rewrite Hab.
Qed.

End Replace.

(** ** The sound loop *)

Section SoundLoopFacts.

Variable icon_root : string.

Lemma sound_loop_from (filenames l : list string) (acc : list SoundEntry) :
  fold_left (sound_step icon_root filenames) l acc
  = (acc ++ map (sound_obj icon_root filenames) (filter is_wav l))%list.
Proof.
  revert acc; induction l as [|f l IH]; intros acc; simpl.
  - now rewrite app_nil_r.
  - rewrite IH. unfold sound_step, is_wav.
    destruct (Py.endswith f ".wav"); [|reflexivity].
    now rewrite <- app_assoc.
Qed.

(** The loop appends one [obj] per [.wav] filename, in listing order. *)
Lemma sound_loop_closed (filenames : list string) :
  sound_loop icon_root filenames filenames
  = map (sound_obj icon_root filenames) (filter is_wav filenames).
Proof. apply sound_loop_from. Qed.

Lemma sorted_soundlist_in (filenames : list string) (e : SoundEntry) :
  In e (sorted_soundlist icon_root filenames) <->
  exists f, In f filenames /\ Py.endswith f ".wav" = true
            /\ e = sound_obj icon_root filenames f.
Proof.
  unfold sorted_soundlist. rewrite sort_by_in, sound_loop_closed, in_map_iff.
  split.
  - intros [f [<- Hf]]. apply filter_In in Hf as [Hf Hw]. now exists f.
  - intros [f [Hf [Hw ->]]]. exists f. split; [reflexivity|].
    apply filter_In. now split.
Qed.

Lemma sound_obj_audio_inj (filenames : list string) (f g : string) :
  audio (sound_obj icon_root filenames f)
  = audio (sound_obj icon_root filenames g) -> f = g.
Proof. simpl. intros H. now injection H. Qed.

(** The icon lookup sees the listing as a set. *)
Lemma sound_obj_perm (l l' : list string) (f : string) :
  Permutation l l' -> sound_obj icon_root l f = sound_obj icon_root l' f.
Proof.
  intros HP. unfold sound_obj. f_equal. simpl.
  now rewrite !(str_in_perm _ l l' HP).
Qed.

Lemma sorted_soundlist_perm (l l' : list string) :
  Permutation l l' ->
  sorted_soundlist icon_root l = sorted_soundlist icon_root l'.
Proof.
  intros HP. unfold sorted_soundlist. rewrite !sound_loop_closed.
  rewrite (map_ext _ _ (fun f => sound_obj_perm l l' f HP)).
  apply sort_by_order_free.
  - intros x y Hx Hy Hxy.
    apply in_map_iff in Hx as [f [<- _]].
    apply in_map_iff in Hy as [g [<- _]].
    now rewrite (sound_obj_audio_inj _ _ _ Hxy).
  - now apply Permutation_map, filter_perm.
Qed.

Lemma sorted_soundlist_sorted (filenames : list string) :
  StronglySorted (key_le audio) (sorted_soundlist icon_root filenames).
Proof. apply sort_by_sorted. Qed.

Lemma entries_for_obj (filenames : list string) (f : string)
    (l : list string) :
  entries_for f (map (sound_obj icon_root filenames) l)
  = map (sound_obj icon_root filenames) (filter (fun g => g =? f) l).
Proof.
  induction l as [|g l IH]; simpl; [reflexivity|].
  fold (entries_for f (map (sound_obj icon_root filenames) l)).
  rewrite IH. now destruct (g =? f).
Qed.

Lemma occurrences_nodup (f : string) (l : list string) :
  NoDup l ->
  List.length (filter (fun g => g =? f) l)
  = if Py.str_in f l then 1 else 0.
Proof.
  unfold Py.str_in.
  induction 1 as [|g l Hg HND IH]; simpl; [reflexivity|].
  rewrite (String.eqb_sym f g).
  destruct (g =? f) eqn:E; simpl; [|assumption].
  apply String.eqb_eq in E. subst g. rewrite IH.
  destruct (existsb (String.eqb f) l) eqn:Ex; [|reflexivity].
  apply (str_in_iff f l) in Ex. contradiction.
Qed.

Lemma str_in_filter (p : string -> bool) (f : string) (l : list string) :
  Py.str_in f (filter p l) = p f && Py.str_in f l.
Proof.
  apply eq_true_iff_eq.
  rewrite andb_true_iff, !str_in_iff, filter_In. tauto.
Qed.

Lemma entries_for_count (filenames : list string) (f : string) :
  NoDup filenames ->
  List.length (entries_for f (sorted_soundlist icon_root filenames))
  = if Py.endswith f ".wav" && Py.str_in f filenames then 1 else 0.
Proof.
  intros HND. unfold sorted_soundlist, entries_for.
  rewrite (Permutation_length (filter_perm _ _ _ (sort_by_perm audio _))).
  fold (entries_for f (sound_loop icon_root filenames filenames)).
  rewrite sound_loop_closed, entries_for_obj, length_map.
  rewrite occurrences_nodup by now apply NoDup_filter.
  now rewrite str_in_filter.
Qed.

Lemma sorted_soundlist_length (filenames : list string) :
  List.length (sorted_soundlist icon_root filenames)
  = List.length (filter is_wav filenames).
Proof.
  unfold sorted_soundlist.
  now rewrite sort_by_length, sound_loop_closed, length_map.
Qed.

(** The two candidates of a [.wav] filename are different names. *)
Lemma icon_filename_differs (f : string) :
  Py.endswith f ".wav" = true ->
  icon_filename f "png" <> icon_filename f "svg".
Proof.
  intros H. apply endswith_split in H as [p ->].
  unfold icon_filename, Py.replace.
  rewrite <- (append_empty_r ".wav").
  apply (replace_from_differs "." "wav"); [reflexivity | discriminate].
Qed.

(** The icon of an entry: png if its candidate is listed, else svg if
    its candidate is listed, else none. *)
Lemma icon_resolution (filenames : list string) (f : string) :
  icon (sound_obj icon_root filenames f)
  = if Py.str_in (icon_filename f "png") filenames
    then Some (icon_root ++ icon_filename f "png")
    else if Py.str_in (icon_filename f "svg") filenames
         then Some (icon_root ++ icon_filename f "svg")
         else None.
Proof. reflexivity. Qed.

End SoundLoopFacts.

(** ** Runs *)

Section RunFacts.

Variable w : World.

Lemma printed_nil (st : State) : printed [] st = st.
Proof. destruct st. unfold printed. simpl. now rewrite app_nil_r. Qed.

Lemma printed_printed (a b : list string) (st : State) :
  printed b (printed a st) = printed (a ++ b) st.
Proof. unfold printed. simpl. now rewrite app_assoc. Qed.

Lemma read_set_file (name text : string) (fs : list (string * string)) :
  read_file name (set_file name text fs) = Some text.
Proof. unfold set_file. simpl. now rewrite String.eqb_refl. Qed.

Lemma set_file_twice (name text text' : string)
    (fs : list (string * string)) :
  set_file name text' (set_file name text fs) = set_file name text' fs.
Proof.
  unfold set_file. cbn [filter fst]. rewrite String.eqb_refl. cbn [negb].
  f_equal. induction fs as [|[n c] fs IH]; [reflexivity|].
  cbn [filter fst]. destruct (negb (n =? name)) eqn:E; cbn [filter fst].
  - now rewrite E, IH.
  - assumption.
Qed.

(** [json.dump(v, open(name, "w"), indent=4)] as one step: the file
    object is opened, written to and, the call over, closed. *)
Lemma dump_then {B : Type} (name : string) (v : json) (k : M B)
    (st : State) :
  open_error w name = None ->
  (fp <- open_w w name ;; json_dump w v fp ;; release fp ;; k) st
  = k (saved name (dumps w v) st).
Proof.
  intros Ho. unfold bind, open_w, json_dump, release. rewrite Ho.
  unfold closed, written, opened, content.
  cbn [open_handles files stdout write_to pending_of drop_handle].
  rewrite String.eqb_refl. cbn [pending_of drop_handle].
  rewrite String.eqb_refl, read_set_file, set_file_twice. reflexivity.
Qed.

Lemma dump_fails {B : Type} (name : string) (v : json) (k : M B)
    (st : State) (e : Exception) :
  open_error w name = Some e ->
  (fp <- open_w w name ;; json_dump w v fp ;; release fp ;; k) st
  = (inl e, st).
Proof. intros Ho. unfold bind, open_w. now rewrite Ho. Qed.

Lemma first_failure_none (error : string -> option Exception)
    (lines : list string) :
  first_failure error lines = None <->
  (forall line, In line lines -> error line = None).
Proof.
  induction lines as [|x r IH]; cbn [first_failure].
  - split; [intros _ line [] | reflexivity].
  - destruct (error x) as [e|] eqn:Ex.
    + split; [discriminate|]. intros H.
      rewrite (H x (or_introl eq_refl)) in Ex. discriminate.
    + destruct (first_failure error r) as [[d e]|].
      * split; [discriminate|]. intros H.
        assert (Hr : Some (d, e) = None)
          by (apply IH; intros line Hl; apply H; now right).
        discriminate.
      * split; [|reflexivity]. intros _ line [<-|Hl]; [assumption|].
        now apply IH.
Qed.

Lemma first_failure_some (error : string -> option Exception)
    (lines done : list string) (e : Exception) :
  first_failure error lines = Some (done, e) ->
  (forall line, In line done -> In line lines)
  /\ exists line, In line lines /\ error line = Some e.
Proof.
  revert done; induction lines as [|x r IH]; intros done;
    cbn [first_failure]; [discriminate|].
  destruct (error x) as [e'|] eqn:Ex.
  - intros H. injection H as <- <-. split; [intros line []|].
    exists x. split; [now left | assumption].
  - destruct (first_failure error r) as [[d e']|]; [|discriminate].
    intros H. injection H as <- <-.
    destruct (IH d eq_refl) as [Hin [line [Hl He]]]. split.
    + intros y [<-|Hy]; [now left | right; now apply Hin].
    + exists line. split; [now right | assumption].
Qed.

(** The backing-track loop: it appends one entry per [.mp3] filename and
    prints one warning per unreadable one, and it raises only where
    printing a warning raises. *)
Lemma backing_loop_from (l : list string)
    (acc : list BackingTrackEntry) (st : State) :
  for_in l (create_audiomap.backing_step w) acc st
  = match first_failure (print_error w)
            (create_audiomap.backing_warnings w l) with
    | Some (done, e) => (inl e, printed done st)
    | None =>
        (inr (acc ++ create_audiomap.backing_entries w l)%list,
         printed (create_audiomap.backing_warnings w l) st)
    end.
Proof.
  revert acc st; induction l as [|f l IH]; intros acc st.
  - cbn. now rewrite app_nil_r, printed_nil.
  - cbn [for_in]. unfold bind at 1.
    unfold create_audiomap.backing_step,
      create_audiomap.backing_entries, create_audiomap.backing_warnings,
      create_audiomap.recorded_duration.
    cbn [filter]. destruct (Py.endswith f ".mp3").
    + unfold try_except, bind, MP3_length, print, ret. cbn [map flat_map].
      destruct (MP3_info_length w _) as [e|d].
      * cbn [app first_failure].
        destruct (print_error w (create_audiomap.warning f e)) as [e'|].
        -- now rewrite printed_nil.
        -- rewrite IH.
           fold (create_audiomap.backing_warnings w l).
           destruct (first_failure (print_error w)
                       (create_audiomap.backing_warnings w l))
             as [[done e']|].
           ++ now rewrite printed_printed.
           ++ rewrite printed_printed, <- app_assoc. reflexivity.
      * cbn [app]. rewrite IH.
        fold (create_audiomap.backing_warnings w l).
        destruct (first_failure (print_error w)
                    (create_audiomap.backing_warnings w l)) as [[done e']|];
          [reflexivity|].
        rewrite <- app_assoc. reflexivity.
    + unfold ret. now rewrite IH.
Qed.

Lemma sorted_backing_tracks_run (l : list string) (st : State) :
  create_audiomap.sorted_backing_tracks w l st
  = match first_failure (print_error w)
            (create_audiomap.backing_warnings w l) with
    | Some (done, e) => (inl e, printed done st)
    | None =>
        (inr (Py.sort_by bt_audio (create_audiomap.backing_entries w l)),
         printed (create_audiomap.backing_warnings w l) st)
    end.
Proof.
  unfold create_audiomap.sorted_backing_tracks, bind.
  rewrite backing_loop_from.
  now destruct (first_failure _ _) as [[done e]|].
Qed.

(** Whenever the loop and the sort return, they return the sorted
    entries and have printed the warnings. *)
Lemma sorted_backing_tracks_returns (l : list string) (st st' : State)
    (backing_tracks : list BackingTrackEntry) :
  create_audiomap.sorted_backing_tracks w l st = (inr backing_tracks, st') ->
  backing_tracks
  = Py.sort_by bt_audio (create_audiomap.backing_entries w l)
  /\ st' = printed (create_audiomap.backing_warnings w l) st.
Proof.
  rewrite sorted_backing_tracks_run.
  destruct (first_failure _ _) as [[done e]|]; [discriminate|].
  intros H. injection H as <- <-. now split.
Qed.

(** A run of [create_soundlist.py], case by case. *)
Lemma soundlist_main_run (st : State) :
  create_soundlist.main w st
  = match listdir w create_soundlist.sound_dir with
    | inl e => (inl e, st)
    | inr filenames =>
        match open_error w create_soundlist.output_filename with
        | Some e => (inl e, st)
        | None =>
            let soundlist := create_soundlist.soundlist filenames in
            let line :=
              "Created soundlist.json with "
              ++ Py.str_of_nat (List.length soundlist) ++ " sounds" in
            let st1 :=
              saved create_soundlist.output_filename
                (dumps w (JArray (map json_of_sound soundlist))) st in
            match print_error w line with
            | Some e => (inl e, st1)
            | None => (inr tt, printed [line] st1)
            end
        end
    end.
Proof.
  unfold create_soundlist.main, bind at 1, os_listdir.
  destruct (listdir w _) as [e|l]; [reflexivity|].
  destruct (open_error w create_soundlist.output_filename) as [e|] eqn:Ho.
  - now apply dump_fails.
  - cbv zeta. rewrite (dump_then _ _ _ _ Ho). unfold print.
    now destruct (print_error w _).
Qed.

(** A run of [create_audiomap.py], case by case. *)
Lemma audiomap_main_run (st : State) :
  create_audiomap.main w st
  = match listdir w create_audiomap.sound_dir with
    | inl e => (inl e, st)
    | inr filenames =>
        match listdir w create_audiomap.backing_tracks_dir with
        | inl e => (inl e, st)
        | inr backing_filenames =>
            match first_failure (print_error w)
                    (create_audiomap.backing_warnings w backing_filenames)
            with
            | Some (done, e) => (inl e, printed done st)
            | None =>
                let soundlist := create_audiomap.soundlist filenames in
                let backing_tracks :=
                  Py.sort_by bt_audio
                    (create_audiomap.backing_entries w backing_filenames) in
                let st1 :=
                  printed
                    (create_audiomap.backing_warnings w backing_filenames)
                    st in
                match open_error w create_audiomap.output_filename with
                | Some e => (inl e, st1)
                | None =>
                    let st2 :=
                      saved create_audiomap.output_filename
                        (dumps w
                           (create_audiomap.audiomap backing_tracks
                              soundlist)) st1 in
                    match print_error w
                            (create_audiomap.summary backing_tracks soundlist)
                    with
                    | Some e => (inl e, st2)
                    | None =>
                        (inr tt,
                         printed
                           [create_audiomap.summary backing_tracks soundlist]
                           st2)
                    end
                end
            end
        end
    end.
Proof.
  unfold create_audiomap.main, bind at 1 2, os_listdir.
  destruct (listdir w create_audiomap.sound_dir) as [e|l]; [reflexivity|].
  destruct (listdir w create_audiomap.backing_tracks_dir) as [e|b];
    [reflexivity|].
  unfold bind at 1. rewrite sorted_backing_tracks_run.
  destruct (first_failure _ _) as [[done e]|]; [reflexivity|].
  cbv zeta.
  destruct (open_error w create_audiomap.output_filename) as [e|] eqn:Ho.
  - now apply dump_fails.
  - rewrite (dump_then _ _ _ _ Ho). unfold print.
    now destruct (print_error w _).
Qed.

End RunFacts.

(** ** The icon candidate *)

(** For a filename in which [.wav] occurs at the end only, the candidate
    the scripts look for is the sibling icon of the specification. *)
Lemma icon_filename_trailing (f extension : string) :
  Py.endswith f ".wav" = true ->
  only_trailing ".wav" f ->
  icon_filename f extension = sibling_icon f extension.
Proof.
  intros Hw Honly. apply endswith_split in Hw as [p ->].
  unfold icon_filename, sibling_icon, Py.replace.
  rewrite (replace_from_trailing "." "wav") by exact Honly.
  change (drop_last 4 (p ++ ".wav"))
    with (drop_last (String.length ".wav") (p ++ ".wav")).
  now rewrite drop_last_append.
Qed.

(** C1.  The candidate icon filename is meant to be the filename with its
    sound extension replaced by the icon suffix, for every [.wav]
    filename.  The scripts replace every occurrence of [.wav]: for
    [a.wav.wav] they look for [a__icon.png__icon.png], not for the sibling
    [a.wav__icon.png], and although that sibling is in the listing the
    entry gets no icon, in both scripts. *)
Theorem icon_candidate_double_wav :
  let listing := ["a.wav.wav"; "a.wav__icon.png"] in
  Py.endswith "a.wav.wav" ".wav" = true
  /\ sibling_icon "a.wav.wav" "png" = "a.wav__icon.png"
  /\ icon_filename "a.wav.wav" "png" = "a__icon.png__icon.png"
  /\ icon_filename "a.wav.wav" "png" <> sibling_icon "a.wav.wav" "png"
  /\ create_soundlist.soundlist listing
     = [{| audio := "sounds/a.wav.wav"; icon := None |}]
  /\ create_audiomap.soundlist listing
     = [{| audio := "sounds/a.wav.wav"; icon := None |}].
Proof.
  cbv zeta. repeat split; try reflexivity.
  vm_compute. discriminate.
Qed.

(** ** The sound entries *)

(** C2.  In [create_audiomap.py] every sound entry has an [audio] path
    under [sounds/], not under [assets/sounds/], while a resolved [icon]
    path is under [assets/sounds/], not under [sounds/]. *)
Theorem audiomap_entry_roots (filenames : list string) (e : SoundEntry) :
  In e (create_audiomap.soundlist filenames) ->
  prefix "sounds/" (audio e) = true
  /\ prefix "assets/sounds/" (audio e) = false
  /\ (forall i, icon e = Some i ->
        prefix "assets/sounds/" i = true /\ prefix "sounds/" i = false).
Proof.
  intros He. apply sorted_soundlist_in in He as [f [_ [_ ->]]].
  split; [apply prefix_append|]. split; [reflexivity|].
  intros i. rewrite icon_resolution.
  destruct (Py.str_in _ filenames);
    [|destruct (Py.str_in _ filenames); [|discriminate]];
    intros Hi; injection Hi as <-;
    (split; [apply (prefix_append "assets/sounds/") | reflexivity]).
Qed.

Lemma audiomap_entry_roots_witness :
  let e := {| audio := "sounds/kick.wav";
              icon := Some "assets/sounds/kick__icon.png" |} in
  In e (create_audiomap.soundlist Examples.kick_snare)
  /\ prefix "sounds/" (audio e) = true
  /\ prefix "assets/sounds/" (audio e) = false
  /\ (forall i, icon e = Some i ->
        prefix "assets/sounds/" i = true /\ prefix "sounds/" i = false).
Proof.
  cbv zeta.
  assert (H : In {| audio := "sounds/kick.wav";
                    icon := Some "assets/sounds/kick__icon.png" |}
                 (create_audiomap.soundlist Examples.kick_snare))
    by (vm_compute; left; reflexivity).
  split; [exact H|].
  exact (audiomap_entry_roots Examples.kick_snare _ H).
Defined.

Lemma one_entry_per_wav_root (icon_root : string) (filenames : list string) :
  NoDup filenames ->
  one_entry_per_wav filenames (sorted_soundlist icon_root filenames).
Proof.
  intros HND. repeat split.
  - intros f. now apply entries_for_count.
  - intros e He. apply sorted_soundlist_in in He as [f [Hf [Hw ->]]].
    now exists f.
  - apply sorted_soundlist_length.
Qed.

(** C3.  For a directory listing (no filename twice), in both scripts:
    every listed filename ending in [.wav] has exactly one entry, every
    other filename has none, and there are no further entries. *)
Theorem exactly_one_entry_per_wav (filenames : list string) :
  NoDup filenames ->
  one_entry_per_wav filenames (create_soundlist.soundlist filenames)
  /\ one_entry_per_wav filenames (create_audiomap.soundlist filenames).
Proof. intros HND. split; now apply one_entry_per_wav_root. Qed.

Lemma kick_snare_nodup : NoDup Examples.kick_snare.
Proof.
  unfold Examples.kick_snare.
  repeat constructor; simpl; intuition discriminate.
Defined.

Lemma exactly_one_entry_per_wav_witness :
  NoDup Examples.kick_snare
  /\ one_entry_per_wav Examples.kick_snare
       (create_soundlist.soundlist Examples.kick_snare)
  /\ one_entry_per_wav Examples.kick_snare
       (create_audiomap.soundlist Examples.kick_snare).
Proof.
  split; [exact kick_snare_nodup|].
  exact (exactly_one_entry_per_wav Examples.kick_snare kick_snare_nodup).
Defined.

Lemma png_preferred_root (icon_root : string) (filenames : list string)
    (filename : string) (e : SoundEntry) :
  audio e = "sounds/" ++ filename ->
  In e (sorted_soundlist icon_root filenames) ->
  png_preferred icon_root filenames filename e.
Proof.
  intros Ha He. apply sorted_soundlist_in in He as [f [_ [Hw ->]]].
  simpl in Ha. injection Ha as ->.
  unfold png_preferred. cbv zeta. rewrite icon_resolution. split.
  - intros Hpng _. apply str_in_iff in Hpng. rewrite Hpng.
    split; [reflexivity|]. intros H. injection H as H.
    apply append_inv_head in H. now apply icon_filename_differs in H.
  - intros Hpng Hsvg.
    destruct (Py.str_in (icon_filename filename "png") filenames) eqn:E1;
      [now apply str_in_iff in E1|].
    destruct (Py.str_in (icon_filename filename "svg") filenames) eqn:E2;
      [now apply str_in_iff in E2|].
    reflexivity.
Qed.

(** C4.  In both scripts, the entry of a sound filename takes the png
    candidate's path as its icon, not the svg candidate's, when both
    candidates are among the scanned filenames, and has a null icon when
    neither is. *)
Theorem png_before_svg (filenames : list string) (filename : string)
    (e : SoundEntry) :
  audio e = "sounds/" ++ filename ->
  (In e (create_soundlist.soundlist filenames) ->
   png_preferred "sounds/" filenames filename e)
  /\ (In e (create_audiomap.soundlist filenames) ->
      png_preferred "assets/sounds/" filenames filename e).
Proof. intros Ha. split; now apply png_preferred_root. Qed.

Lemma png_before_svg_witness :
  let filenames := ["kick.wav"; "kick__icon.svg"; "kick__icon.png"] in
  let e := {| audio := "sounds/kick.wav";
              icon := Some "sounds/kick__icon.png" |} in
  In e (create_soundlist.soundlist filenames)
  /\ png_preferred "sounds/" filenames "kick.wav" e.
Proof.
  cbv zeta. split; [vm_compute; left; reflexivity|].
  apply (png_before_svg ["kick.wav"; "kick__icon.svg"; "kick__icon.png"]
           "kick.wav"); [reflexivity|].
  vm_compute. left. reflexivity.
Defined.

(** C5.  Whatever the listings and their order, each sequence of the
    manifest is sorted ascending by [audio]: the sound entries of both
    scripts, and the backing tracks, which the loop and the sort return
    unless printing a warning raised. *)
Theorem sequences_sorted_by_audio :
  (forall filenames,
      StronglySorted (key_le audio) (create_soundlist.soundlist filenames))
  /\ (forall filenames,
        StronglySorted (key_le audio) (create_audiomap.soundlist filenames))
  /\ (forall w backing_filenames st,
        match fst (create_audiomap.sorted_backing_tracks w
                     backing_filenames st) with
        | inr backing_tracks =>
            StronglySorted (key_le bt_audio) backing_tracks
        | inl e => exists line, print_error w line = Some e
        end).
Proof.
  split; [|split].
  - intros. apply sorted_soundlist_sorted.
  - intros. apply sorted_soundlist_sorted.
  - intros w l st. rewrite sorted_backing_tracks_run.
    destruct (first_failure _ _) as [[done e]|] eqn:E; cbn [fst].
    + apply first_failure_some in E as [_ [line [_ He]]]. now exists line.
    + apply sort_by_sorted.
Qed.

(** ** Whole runs *)

Lemma read_saved (name text : string) (st : State) :
  read_file name (files (saved name text st)) = Some text.
Proof. unfold saved. cbn [files]. apply read_set_file. Qed.

Lemma backing_entries_in (w : World) (l : list string) (g : string) :
  In g l -> Py.endswith g ".mp3" = true ->
  In (create_audiomap.backing_obj g (create_audiomap.recorded_duration w g))
     (Py.sort_by bt_audio (create_audiomap.backing_entries w l)).
Proof.
  intros Hg Hmp3. apply sort_by_in.
  unfold create_audiomap.backing_entries.
  apply in_map_iff. exists g. split; [reflexivity|].
  apply filter_In. now split.
Qed.

Lemma backing_warnings_in (w : World) (l : list string) (f : string)
    (e : Exception) :
  In f l -> Py.endswith f ".mp3" = true ->
  MP3_info_length w (create_audiomap.backing_tracks_dir ++ "/" ++ f) = inl e ->
  In (create_audiomap.warning f e) (create_audiomap.backing_warnings w l).
Proof.
  intros Hf Hmp3 He. unfold create_audiomap.backing_warnings.
  apply in_flat_map. exists f. split; [apply filter_In; now split|].
  rewrite He. now left.
Qed.

(** C6.  An unreadable [.mp3] file is meant never to stop the run.  In
    [create_audiomap.py] the handler prints the warning before it appends
    the entry, and nothing guards that [print]: for a corrupt file whose
    name standard output cannot encode (here the byte FF followed by
    [.mp3], under a UTF-8 standard output) the [print] raises inside the
    handler, the exception leaves [main], and the run ends with no entry
    for that file, none for the valid [loop.mp3] listed after it, and no
    manifest written. *)
Theorem unprintable_warning_aborts_run :
  let w := Examples.unprintable_world in
  let name := Examples.unprintable_name in
  let cause := "can't sync to MPEG frame" in
  let error :=
    "'utf-8' codec can't encode character: surrogates not allowed" in
  listdir w create_audiomap.backing_tracks_dir = inr [name; "loop.mp3"]
  /\ Py.endswith name ".mp3" = true
  /\ MP3_info_length w (create_audiomap.backing_tracks_dir ++ "/" ++ name)
     = inl cause
  /\ print_error w (create_audiomap.warning name cause) = Some error
  /\ create_audiomap.main w Examples.empty_state
     = (inl error, Examples.empty_state)
  /\ read_file create_audiomap.output_filename
       (files (snd (create_audiomap.main w Examples.empty_state)))
     = None.
Proof. cbv zeta. repeat split; reflexivity. Qed.

(** C7.  When the directory scan raises, the exception leaves [main]
    uncaught and nothing has been done: no file written or truncated, no
    line printed, no file opened.  In [create_audiomap.py] this holds for
    either directory. *)
Theorem missing_directory_fatal (w : World) (st : State) (e : Exception) :
  (listdir w create_soundlist.sound_dir = inl e ->
   create_soundlist.main w st = (inl e, st))
  /\ (listdir w create_audiomap.sound_dir = inl e ->
      create_audiomap.main w st = (inl e, st))
  /\ (forall filenames,
        listdir w create_audiomap.sound_dir = inr filenames ->
        listdir w create_audiomap.backing_tracks_dir = inl e ->
        create_audiomap.main w st = (inl e, st)).
Proof.
  split; [|split].
  - intros H. now rewrite soundlist_main_run, H.
  - intros H. now rewrite audiomap_main_run, H.
  - intros l H1 H2. now rewrite audiomap_main_run, H1, H2.
Qed.

Lemma missing_directory_fatal_witness :
  create_soundlist.main Examples.bare_world Examples.empty_state
  = (inl "[Errno 2] No such file or directory: 'sounds'",
     Examples.empty_state)
  /\ create_audiomap.main Examples.bare_world Examples.empty_state
     = (inl "[Errno 2] No such file or directory: '../assets/sounds'",
        Examples.empty_state)
  /\ create_audiomap.main Examples.half_world Examples.empty_state
     = (inl "[Errno 2] No such file or directory: '../assets/backing_tracks'",
        Examples.empty_state).
Proof.
  split; [|split].
  - apply (proj1 (missing_directory_fatal Examples.bare_world
                    Examples.empty_state _)).
    reflexivity.
  - apply (proj1 (proj2 (missing_directory_fatal Examples.bare_world
                           Examples.empty_state _))).
    reflexivity.
  - apply (proj2 (proj2 (missing_directory_fatal Examples.half_world
                           Examples.empty_state _)) Examples.kick_snare);
      reflexivity.
Defined.

(** ** Order of the listing *)

Lemma backing_entries_order_free (w : World) (l l' : list string) :
  Permutation l l' ->
  Py.sort_by bt_audio (create_audiomap.backing_entries w l)
  = Py.sort_by bt_audio (create_audiomap.backing_entries w l').
Proof.
  intros HP. apply sort_by_order_free.
  - unfold create_audiomap.backing_entries. intros x y Hx Hy Hxy.
    apply in_map_iff in Hx as [f [<- _]].
    apply in_map_iff in Hy as [g [<- _]].
    simpl in Hxy. injection Hxy as ->. reflexivity.
  - unfold create_audiomap.backing_entries.
    now apply Permutation_map, filter_perm.
Qed.

Lemma backing_warnings_perm (w : World) (l l' : list string) :
  Permutation l l' ->
  Permutation (create_audiomap.backing_warnings w l)
              (create_audiomap.backing_warnings w l').
Proof.
  intros HP. unfold create_audiomap.backing_warnings.
  now apply Permutation_flat_map, filter_perm.
Qed.

(** Whether every warning can be printed does not depend on the order
    of the listing. *)
Lemma first_failure_perm (w : World) (l l' : list string) :
  Permutation l l' ->
  first_failure (print_error w) (create_audiomap.backing_warnings w l) = None
  ->
  first_failure (print_error w) (create_audiomap.backing_warnings w l')
  = None.
Proof.
  intros HP. rewrite !first_failure_none. intros H line Hl. apply H.
  apply (Permutation_in _
           (Permutation_sym (backing_warnings_perm w l l' HP)) Hl).
Qed.

Lemma same_listing_refl (a : Exception + list string) : same_listing a a.
Proof. destruct a; simpl; reflexivity. Qed.

Lemma soundlist_same_output (w : World)
    (listdir' : string -> Exception + list string) (st st2 : State) :
  same_listing (listdir w create_soundlist.sound_dir)
               (listdir' create_soundlist.sound_dir) ->
  same_output create_soundlist.output_filename
    (create_soundlist.main w st)
    (create_soundlist.main (relisted w listdir') st2).
Proof.
  intros H. unfold same_output. rewrite !soundlist_main_run.
  change (listdir (relisted w listdir') create_soundlist.sound_dir)
    with (listdir' create_soundlist.sound_dir).
  change (open_error (relisted w listdir') create_soundlist.output_filename)
    with (open_error w create_soundlist.output_filename).
  change (print_error (relisted w listdir')) with (print_error w).
  destruct (listdir w _) as [e|l], (listdir' _) as [e'|l'];
    simpl in H; try contradiction.
  - subst e'. split; [reflexivity | discriminate].
  - unfold create_soundlist.soundlist.
    rewrite (sorted_soundlist_perm "sounds/" l l' H).
    destruct (open_error w _); cbv zeta;
      [split; [reflexivity | discriminate]|].
    destruct (print_error w _);
      (split; [reflexivity|]); [discriminate|].
    intros _. cbn [fst snd printed files]. now rewrite !read_saved.
Qed.

Lemma audiomap_same_manifest (w : World)
    (listdir' : string -> Exception + list string) (st st2 : State) :
  same_listing (listdir w create_audiomap.sound_dir)
               (listdir' create_audiomap.sound_dir) ->
  same_listing (listdir w create_audiomap.backing_tracks_dir)
               (listdir' create_audiomap.backing_tracks_dir) ->
  same_manifest create_audiomap.output_filename
    (create_audiomap.main w st)
    (create_audiomap.main (relisted w listdir') st2)
  /\ ((forall line, print_error w line = None) ->
      fst (create_audiomap.main w st)
      = fst (create_audiomap.main (relisted w listdir') st2)).
Proof.
  intros Hs Hb. unfold same_manifest. rewrite !audiomap_main_run.
  change (listdir (relisted w listdir') create_audiomap.sound_dir)
    with (listdir' create_audiomap.sound_dir).
  change (listdir (relisted w listdir') create_audiomap.backing_tracks_dir)
    with (listdir' create_audiomap.backing_tracks_dir).
  change (open_error (relisted w listdir') create_audiomap.output_filename)
    with (open_error w create_audiomap.output_filename).
  change (print_error (relisted w listdir')) with (print_error w).
  destruct (listdir w create_audiomap.sound_dir) as [e|l],
           (listdir' create_audiomap.sound_dir) as [e'|l'];
    simpl in Hs; try contradiction.
  { subst e'. repeat split; try reflexivity; discriminate. }
  destruct (listdir w create_audiomap.backing_tracks_dir) as [e|b],
           (listdir' create_audiomap.backing_tracks_dir) as [e'|b'];
    simpl in Hb; try contradiction.
  { subst e'. repeat split; try reflexivity; discriminate. }
  change (create_audiomap.backing_warnings (relisted w listdir') b')
    with (create_audiomap.backing_warnings w b').
  change (create_audiomap.backing_entries (relisted w listdir') b')
    with (create_audiomap.backing_entries w b').
  pose proof (first_failure_perm w b b' Hb) as H1.
  pose proof (first_failure_perm w b' b (Permutation_sym Hb)) as H2.
  destruct (first_failure (print_error w)
              (create_audiomap.backing_warnings w b)) as [[d e]|] eqn:E1;
    destruct (first_failure (print_error w)
                (create_audiomap.backing_warnings w b')) as [[d' e']|] eqn:E2;
    try (specialize (H1 eq_refl); discriminate);
    try (specialize (H2 eq_refl); discriminate).
  - cbn [fst]. split; [split; [split; discriminate | discriminate]|].
    intros Hp. apply first_failure_some in E1 as [_ [line [_ He]]].
    rewrite Hp in He. discriminate.
  - cbv zeta. unfold create_audiomap.soundlist.
    rewrite (sorted_soundlist_perm "assets/sounds/" l l' Hs).
    rewrite (backing_entries_order_free w b b' Hb).
    destruct (open_error w _);
      [repeat split; try reflexivity; discriminate|].
    destruct (print_error w _);
      [repeat split; try reflexivity; discriminate|].
    split; [split; [split; reflexivity|] | reflexivity].
    intros _. cbn [fst snd printed files]. now rewrite !read_saved.
Qed.

(** C8.  Two runs in worlds that differ at most in the order in which
    [os.listdir] enumerates the filenames, started in any two states (the
    second run may start where the first one ended), complete or fail
    alike, and when they complete the text of the manifest they leave is
    the same, byte for byte; this holds for both scripts.  The outcome
    itself is the same too, for [create_soundlist.py] always and for
    [create_audiomap.py] when no [print] raises. *)
Theorem output_independent_of_listing_order (w : World)
    (listdir' : string -> Exception + list string) (st st2 : State) :
  (forall dir, same_listing (listdir w dir) (listdir' dir)) ->
  same_output create_soundlist.output_filename
    (create_soundlist.main w st)
    (create_soundlist.main (relisted w listdir') st2)
  /\ same_manifest create_audiomap.output_filename
       (create_audiomap.main w st)
       (create_audiomap.main (relisted w listdir') st2)
  /\ ((forall line, print_error w line = None) ->
      same_output create_audiomap.output_filename
        (create_audiomap.main w st)
        (create_audiomap.main (relisted w listdir') st2)).
Proof.
  intros Hdir.
  destruct (audiomap_same_manifest w listdir' st st2
              (Hdir create_audiomap.sound_dir)
              (Hdir create_audiomap.backing_tracks_dir)) as [[Hiff Htext] Hfst].
  split; [apply soundlist_same_output, Hdir|].
  split; [now split|].
  intros Hp. split; [now apply Hfst | exact Htext].
Qed.

Lemma reordered_same_listing (dir : string) :
  same_listing (listdir Examples.extended_world dir)
               (listdir Examples.extended_world_reordered dir).
Proof.
  unfold Examples.extended_world, Examples.extended_world_reordered,
    Examples.world. cbn [listdir Examples.lookup].
  destruct ("../assets/sounds" =? dir).
  - apply (Permutation_rev
             ["kick.wav"; "kick__icon.png"; "kick__icon.svg"; "snare.wav"]).
  - destruct ("../assets/backing_tracks" =? dir).
    + apply (Permutation_rev ["loop.mp3"; "notes.txt"; "broken.mp3"]).
    + reflexivity.
Defined.

Lemma output_independent_of_listing_order_witness :
  let first_run :=
    create_audiomap.main Examples.extended_world Examples.empty_state in
  (forall dir,
      same_listing (listdir Examples.extended_world dir)
                   (listdir Examples.extended_world_reordered dir))
  /\ same_manifest create_audiomap.output_filename first_run
       (create_audiomap.main
          (relisted Examples.extended_world
             (listdir Examples.extended_world_reordered))
          (snd first_run)).
Proof.
  cbv zeta. split; [exact reordered_same_listing|].
  exact (proj1 (proj2 (output_independent_of_listing_order
                         Examples.extended_world
                         (listdir Examples.extended_world_reordered)
                         Examples.empty_state _ reordered_same_listing))).
Defined.

(** ** The example of the specification *)

(** C9.  For the listing [kick.wav], [kick__icon.png], [snare.wav], in any
    order, the sorted [soundlist] is the kick entry with its png icon
    followed by the snare entry with a null icon, and a run that can open
    its output writes exactly this two-element array, whether or not the
    summary line can be printed afterwards. *)
Theorem kick_snare_manifest (l : list string) :
  Permutation Examples.kick_snare l ->
  create_soundlist.soundlist l
  = [{| audio := "sounds/kick.wav"; icon := Some "sounds/kick__icon.png" |};
     {| audio := "sounds/snare.wav"; icon := None |}]
  /\ (forall w st,
        listdir w create_soundlist.sound_dir = inr l ->
        open_error w create_soundlist.output_filename = None ->
        exists st',
          create_soundlist.main w st
          = (match print_error w "Created soundlist.json with 2 sounds" with
             | Some e => inl e
             | None => inr tt
             end, st')
          /\ read_file create_soundlist.output_filename (files st')
             = Some (dumps w
                  (JArray
                     [JObject [("audio", JString "sounds/kick.wav");
                               ("icon", JString "sounds/kick__icon.png")];
                      JObject [("audio", JString "sounds/snare.wav");
                               ("icon", JNull)]]))).
Proof.
  intros HP.
  assert (Hl : create_soundlist.soundlist l
               = [{| audio := "sounds/kick.wav";
                     icon := Some "sounds/kick__icon.png" |};
                  {| audio := "sounds/snare.wav"; icon := None |}]).
  { unfold create_soundlist.soundlist.
    now rewrite <- (sorted_soundlist_perm "sounds/" _ _ HP). }
  split; [exact Hl|].
  intros w st Hdir Hopen.
  rewrite soundlist_main_run, Hdir, Hopen. cbv zeta. rewrite Hl.
  change ("Created soundlist.json with "
          ++ Py.str_of_nat (List.length
               [{| audio := "sounds/kick.wav";
                   icon := Some "sounds/kick__icon.png" |};
                {| audio := "sounds/snare.wav"; icon := None |}])
          ++ " sounds")
    with "Created soundlist.json with 2 sounds".
  destruct (print_error w "Created soundlist.json with 2 sounds");
    eexists; (split; [reflexivity|]); apply read_saved.
Qed.

Lemma kick_snare_manifest_witness :
  create_soundlist.main
    (relisted Examples.simple_world
       (fun _ => inr ["snare.wav"; "kick__icon.png"; "kick.wav"]))
    Examples.empty_state
  = (inr tt,
     {| stdout := ["Created soundlist.json with 2 sounds"];
        files :=
          [("soundlist.json",
            dumps Examples.simple_world
              (JArray
                 [JObject [("audio", JString "sounds/kick.wav");
                           ("icon", JString "sounds/kick__icon.png")];
                  JObject [("audio", JString "sounds/snare.wav");
                           ("icon", JNull)]]))];
        open_handles := [] |})
  /\ create_soundlist.soundlist ["snare.wav"; "kick__icon.png"; "kick.wav"]
     = [{| audio := "sounds/kick.wav";
           icon := Some "sounds/kick__icon.png" |};
        {| audio := "sounds/snare.wav"; icon := None |}].
Proof.
  split; [reflexivity|].
  apply (kick_snare_manifest ["snare.wav"; "kick__icon.png"; "kick.wav"]).
  apply (Permutation_rev Examples.kick_snare).
Defined.

(** ** File objects *)



(** * Further properties of the scripts *)

(** ** Helpers *)

Lemma read_set_file_other (name other text : string)
    (fs : list (string * string)) :
  other <> name ->
  read_file other (set_file name text fs) = read_file other fs.
Proof.
  intros Hne. unfold set_file. cbn [read_file].
  destruct (name =? other) eqn:E;
    [apply String.eqb_eq in E; congruence|].
  induction fs as [|[n c] fs IH]; [reflexivity|].
  cbn [filter fst read_file].
  destruct (n =? name) eqn:En; cbn [negb].
  - apply String.eqb_eq in En. subst n. now rewrite E.
  - cbn [read_file]. now rewrite IH.
Qed.

Lemma insert_by_map {A B : Type} (key : A -> string) (key' : B -> string)
    (g : A -> B) (x : A) (l : list A) :
  (forall a, key' (g a) = key a) ->
  Py.insert_by key' (g x) (map g l) = map g (Py.insert_by key x l).
Proof.
  intros Hk. induction l as [|y l IH]; [reflexivity|].
  cbn [map Py.insert_by]. rewrite !Hk.
  destruct (key y <? key x); cbn [map]; [now rewrite IH | reflexivity].
Qed.

(** Sorting commutes with a change of the entries that keeps their keys. *)
Lemma sort_by_map {A B : Type} (key : A -> string) (key' : B -> string)
    (g : A -> B) (l : list A) :
  (forall a, key' (g a) = key a) ->
  Py.sort_by key' (map g l) = map g (Py.sort_by key l).
Proof.
  intros Hk. induction l as [|x l IH]; [reflexivity|].
  cbn [map Py.sort_by fold_right].
  fold (Py.sort_by key' (map g l)). fold (Py.sort_by key l).
  rewrite IH. now apply insert_by_map.
Qed.

Lemma leb_neq_ltb (a b : string) :
  (a <=? b) = true -> a <> b -> (a <? b) = true.
Proof.
  unfold String.leb, String.ltb. intros Hle Hne.
  destruct (a ?= b) eqn:E; [|reflexivity|discriminate].
  now apply String.compare_eq_iff in E.
Qed.

(** A sorted sequence without repeated keys is strictly ascending. *)
Lemma sorted_strict {A : Type} (key : A -> string) (l : list A) :
  StronglySorted (key_le key) l -> NoDup (map key l) ->
  StronglySorted (key_lt key) l.
Proof.
  induction 1 as [|x l Hs IH Hx]; intros HND; [constructor|].
  cbn [map] in HND. apply NoDup_cons_iff in HND as [Hnin HND].
  constructor; [now apply IH|].
  rewrite Forall_forall in *. intros y Hy.
  apply leb_neq_ltb; [now apply Hx|].
  intros Heq. apply Hnin. rewrite Heq. now apply in_map.
Qed.

Lemma append_inj_map_nodup (p : string) (l : list string) :
  NoDup l -> NoDup (map (fun f => p ++ f) l).
Proof.
  induction 1 as [|x l Hx HND IH]; cbn [map]; constructor; [|assumption].
  intros Hin. apply in_map_iff in Hin as [y [Heq Hy]].
  apply append_inv_head in Heq. now subst y.
Qed.

Lemma dotless_only_trailing (base : string) :
  dotless base = true -> only_trailing ".wav" (base ++ ".wav").
Proof.
  unfold only_trailing.
  induction base as [|c base IH]; intros Hd a b H.
  - apply (f_equal String.length) in H.
    rewrite !length_append in H. cbn in H.
    destruct b; [reflexivity | cbn in H; lia].
  - cbn [dotless] in Hd. apply andb_true_iff in Hd as [Hc Hd].
    destruct a as [|c' a]; cbn in H.
    + injection H as Hc' _. subst c. discriminate.
    + injection H as _ H. now apply (IH Hd a b).
Qed.

(** ** Icons *)

Lemma svg_fallback_root (icon_root : string) (filenames : list string)
    (filename : string) (e : SoundEntry) :
  audio e = "sounds/" ++ filename ->
  In e (sorted_soundlist icon_root filenames) ->
  ~ In (icon_filename filename "png") filenames ->
  In (icon_filename filename "svg") filenames ->
  icon e = Some (icon_root ++ icon_filename filename "svg").
Proof.
  intros Ha He Hpng Hsvg. apply sorted_soundlist_in in He as [f [_ [_ ->]]].
  simpl in Ha. injection Ha as ->. rewrite icon_resolution.
  destruct (Py.str_in (icon_filename filename "png") filenames) eqn:E;
    [now apply str_in_iff in E|].
  apply str_in_iff in Hsvg. now rewrite Hsvg.
Qed.

(** X1.  In both scripts, when the png candidate of a sound filename is
    not listed and the svg candidate is, the entry's icon is the svg
    candidate's path. *)
Theorem svg_when_no_png (filenames : list string) (filename : string)
    (e : SoundEntry) :
  audio e = "sounds/" ++ filename ->
  ~ In (icon_filename filename "png") filenames ->
  In (icon_filename filename "svg") filenames ->
  (In e (create_soundlist.soundlist filenames) ->
   icon e = Some ("sounds/" ++ icon_filename filename "svg"))
  /\ (In e (create_audiomap.soundlist filenames) ->
      icon e = Some ("assets/sounds/" ++ icon_filename filename "svg")).
Proof.
  intros Ha Hpng Hsvg.
  split; intros He; now apply svg_fallback_root with filenames.
Qed.

Lemma svg_when_no_png_witness :
  let filenames := ["snare__icon.svg"; "snare.wav"] in
  let e := {| audio := "sounds/snare.wav";
              icon := Some "sounds/snare__icon.svg" |} in
  In e (create_soundlist.soundlist filenames)
  /\ icon e = Some ("sounds/" ++ icon_filename "snare.wav" "svg").
Proof.
  cbv zeta. split; [vm_compute; left; reflexivity|].
  apply (svg_when_no_png ["snare__icon.svg"; "snare.wav"] "snare.wav").
  - reflexivity.
  - vm_compute. intros [H|[H|[]]]; discriminate.
  - vm_compute. left. reflexivity.
  - vm_compute. left. reflexivity.
Defined.

Lemma resolved_icon_root (icon_root : string) (filenames : list string)
    (e : SoundEntry) (p : string) :
  In e (sorted_soundlist icon_root filenames) ->
  icon e = Some p ->
  exists f c,
    In f filenames /\ audio e = "sounds/" ++ f
    /\ (c = icon_filename f "png" \/ c = icon_filename f "svg")
    /\ In c filenames /\ p = icon_root ++ c.
Proof.
  intros He. apply sorted_soundlist_in in He as [f [Hf [_ ->]]].
  rewrite icon_resolution.
  destruct (Py.str_in (icon_filename f "png") filenames) eqn:E1.
  - intros H. injection H as <-. apply str_in_iff in E1.
    exists f, (icon_filename f "png"). repeat split; auto.
  - destruct (Py.str_in (icon_filename f "svg") filenames) eqn:E2;
      [|discriminate].
    intros H. injection H as <-. apply str_in_iff in E2.
    exists f, (icon_filename f "svg"). repeat split; auto.
Qed.

(** X2.  In both scripts an icon path is never made up: a non-null icon
    is the script's icon root followed by a filename that is in the
    listing, and that filename is the png or the svg candidate of the
    entry's own sound file. *)
Theorem resolved_icon_is_listed (filenames : list string) (e : SoundEntry)
    (p : string) :
  icon e = Some p ->
  (In e (create_soundlist.soundlist filenames) ->
   exists f c,
     In f filenames /\ audio e = "sounds/" ++ f
     /\ (c = icon_filename f "png" \/ c = icon_filename f "svg")
     /\ In c filenames /\ p = "sounds/" ++ c)
  /\ (In e (create_audiomap.soundlist filenames) ->
      exists f c,
        In f filenames /\ audio e = "sounds/" ++ f
        /\ (c = icon_filename f "png" \/ c = icon_filename f "svg")
        /\ In c filenames /\ p = "assets/sounds/" ++ c).
Proof.
  intros Hp. split; intros He; now apply resolved_icon_root.
Qed.

Lemma resolved_icon_is_listed_witness :
  exists f c,
    In f Examples.kick_snare /\ "sounds/kick.wav" = "sounds/" ++ f
    /\ (c = icon_filename f "png" \/ c = icon_filename f "svg")
    /\ In c Examples.kick_snare /\ "sounds/kick__icon.png" = "sounds/" ++ c.
Proof.
  apply (proj1 (resolved_icon_is_listed Examples.kick_snare
                  {| audio := "sounds/kick.wav";
                     icon := Some "sounds/kick__icon.png" |}
                  "sounds/kick__icon.png" eq_refl)).
  vm_compute. left. reflexivity.
Defined.

(** X3.  For a filename of the form [base.wav] whose [base] holds no dot,
    the candidate the scripts look for is [base__icon.<extension>]. *)
Theorem candidate_of_dotless_base (base extension : string) :
  dotless base = true ->
  icon_filename (base ++ ".wav") extension
  = base ++ "__icon." ++ extension.
Proof.
  intros Hd. unfold icon_filename, Py.replace.
  apply (replace_from_trailing "." "wav").
  now apply dotless_only_trailing.
Qed.

Lemma candidate_of_dotless_base_witness :
  dotless "hi-hat_01" = true
  /\ icon_filename "hi-hat_01.wav" "svg" = "hi-hat_01__icon.svg".
Proof.
  split; [reflexivity|].
  apply (candidate_of_dotless_base "hi-hat_01" "svg"). reflexivity.
Defined.

(** ** The two sound lists *)

Lemma sound_obj_under_assets (filenames : list string) (f : string) :
  sound_obj "assets/sounds/" filenames f
  = under_assets (sound_obj "sounds/" filenames f).
Proof.
  unfold under_assets, sound_obj. cbn [audio icon icon_loop].
  destruct (Py.str_in (icon_filename f "png") filenames); [reflexivity|].
  destruct (Py.str_in (icon_filename f "svg") filenames); reflexivity.
Qed.

(** X4.  For one listing the two scripts build the same sound entries, in
    the same order, except that [create_audiomap.py] writes every
    non-null icon path with [assets/] in front. *)
Theorem audiomap_soundlist_is_soundlist_under_assets
    (filenames : list string) :
  create_audiomap.soundlist filenames
  = map under_assets (create_soundlist.soundlist filenames).
Proof.
  unfold create_audiomap.soundlist, create_soundlist.soundlist,
    sorted_soundlist.
  rewrite !sound_loop_closed.
  rewrite <- (sort_by_map audio audio under_assets) by reflexivity.
  rewrite map_map. f_equal. apply map_ext. intros f.
  apply sound_obj_under_assets.
Qed.

Lemma sorted_soundlist_audio_nodup (icon_root : string)
    (filenames : list string) :
  NoDup filenames -> NoDup (map audio (sorted_soundlist icon_root filenames)).
Proof.
  intros HND. unfold sorted_soundlist.
  apply (Permutation_NoDup
           (Permutation_sym (Permutation_map audio (sort_by_perm audio _)))).
  rewrite sound_loop_closed, map_map. cbn [audio sound_obj].
  apply (append_inj_map_nodup "sounds/"). now apply NoDup_filter.
Qed.

(** X5.  For a directory listing (no filename twice), the sound entries
    of both scripts are in strictly ascending order of [audio]: no two
    entries of a manifest share an [audio] path. *)
Theorem audio_strictly_ascending (filenames : list string) :
  NoDup filenames ->
  (StronglySorted (key_lt audio) (create_soundlist.soundlist filenames)
   /\ NoDup (map audio (create_soundlist.soundlist filenames)))
  /\ (StronglySorted (key_lt audio) (create_audiomap.soundlist filenames)
      /\ NoDup (map audio (create_audiomap.soundlist filenames))).
Proof.
  intros HND.
  split; (split; [apply sorted_strict;
                    [apply sorted_soundlist_sorted|] |];
          now apply sorted_soundlist_audio_nodup).
Qed.

Lemma audio_strictly_ascending_witness :
  NoDup Examples.kick_snare
  /\ StronglySorted (key_lt audio)
       (create_soundlist.soundlist Examples.kick_snare).
Proof.
  split; [exact kick_snare_nodup|].
  exact (proj1 (proj1 (audio_strictly_ascending Examples.kick_snare
                         kick_snare_nodup))).
Defined.

(** ** Backing tracks *)

Lemma backing_entries_for_obj (w : World) (f : string) (l : list string) :
  backing_entries_for f
    (map (fun g => create_audiomap.backing_obj g
                     (create_audiomap.recorded_duration w g)) l)
  = map (fun g => create_audiomap.backing_obj g
                    (create_audiomap.recorded_duration w g))
        (filter (fun g => g =? f) l).
Proof.
  unfold backing_entries_for.
  induction l as [|g l IH]; [reflexivity|].
  cbn [map filter bt_audio create_audiomap.backing_obj].
  rewrite IH.
  change ("assets/backing_tracks/" ++ g =? "assets/backing_tracks/" ++ f)
    with (g =? f).
  now destruct (g =? f).
Qed.

Lemma sorted_backing_in (w : World) (l : list string)
    (e : BackingTrackEntry) :
  In e (Py.sort_by bt_audio (create_audiomap.backing_entries w l)) <->
  exists f, In f l /\ is_mp3 f = true
            /\ e = create_audiomap.backing_obj f
                     (create_audiomap.recorded_duration w f).
Proof.
  rewrite sort_by_in. unfold create_audiomap.backing_entries.
  rewrite in_map_iff. split.
  - intros [f [<- Hf]]. apply filter_In in Hf as [Hf Hm]. now exists f.
  - intros [f [Hf [Hm ->]]]. exists f. split; [reflexivity|].
    apply filter_In. now split.
Qed.

(** X6.  For a backing-track listing (no filename twice), whenever the
    loop and the sort return, the sequence has exactly one entry for
    every listed [.mp3] filename and none for any other name; every
    entry is the one of a listed [.mp3] file, with the duration the MP3
    reader gave, or null where it raised. *)
Theorem exactly_one_entry_per_mp3 (w : World) (st st' : State)
    (backing_filenames : list string)
    (backing_tracks : list BackingTrackEntry) :
  NoDup backing_filenames ->
  create_audiomap.sorted_backing_tracks w backing_filenames st
  = (inr backing_tracks, st') ->
  (forall f,
      List.length (backing_entries_for f backing_tracks)
      = if is_mp3 f && Py.str_in f backing_filenames then 1 else 0)
  /\ (forall e,
        In e backing_tracks <->
        exists f,
          In f backing_filenames /\ is_mp3 f = true
          /\ bt_audio e = "assets/backing_tracks/" ++ f
          /\ duration e
             = match MP3_info_length w
                       (create_audiomap.backing_tracks_dir ++ "/" ++ f)
               with
               | inr d => Some d
               | inl _ => None
               end)
  /\ List.length backing_tracks
     = List.length (filter is_mp3 backing_filenames).
Proof.
  intros HND Hrun.
  apply sorted_backing_tracks_returns in Hrun as [-> _].
  split; [|split].
  - intros f. unfold backing_entries_for.
    rewrite (Permutation_length
               (filter_perm _ _ _ (sort_by_perm bt_audio _))).
    fold (backing_entries_for f (create_audiomap.backing_entries w
                                   backing_filenames)).
    unfold create_audiomap.backing_entries.
    rewrite backing_entries_for_obj, length_map.
    rewrite occurrences_nodup by now apply NoDup_filter.
    now rewrite str_in_filter.
  - intros e. rewrite sorted_backing_in. split.
    + intros [f [Hf [Hm ->]]]. exists f. repeat split; assumption.
    + intros [f [Hf [Hm [Ha Hd]]]]. exists f. repeat split; try assumption.
      destruct e as [a d]. cbn in Ha, Hd. subst a d. reflexivity.
  - rewrite sort_by_length. unfold create_audiomap.backing_entries.
    now rewrite length_map.
Qed.

Lemma backing_listing_nodup : NoDup ["loop.mp3"; "notes.txt"; "broken.mp3"].
Proof. repeat constructor; simpl; intuition discriminate. Defined.

Lemma exactly_one_entry_per_mp3_witness :
  let backing_tracks :=
    [create_audiomap.backing_obj "broken.mp3" None;
     create_audiomap.backing_obj "loop.mp3" (Some 12.5%float)] in
  fst (create_audiomap.sorted_backing_tracks Examples.extended_world
         ["loop.mp3"; "notes.txt"; "broken.mp3"] Examples.empty_state)
  = inr backing_tracks
  /\ List.length backing_tracks
     = List.length (filter is_mp3 ["loop.mp3"; "notes.txt"; "broken.mp3"]).
Proof.
  cbv zeta. split; [reflexivity|].
  apply (exactly_one_entry_per_mp3 Examples.extended_world
           Examples.empty_state
           (snd (create_audiomap.sorted_backing_tracks Examples.extended_world
                   ["loop.mp3"; "notes.txt"; "broken.mp3"]
                   Examples.empty_state))
           ["loop.mp3"; "notes.txt"; "broken.mp3"]);
    [exact backing_listing_nodup | reflexivity].
Defined.

Lemma warnings_count (w : World) (l : list string) :
  List.length (create_audiomap.backing_warnings w l)
  = List.length (null_durations (create_audiomap.backing_entries w l)).
Proof.
  unfold create_audiomap.backing_warnings, create_audiomap.backing_entries,
    null_durations, create_audiomap.recorded_duration.
  induction (filter (fun f => Py.endswith f ".mp3") l) as [|f fs IH];
    [reflexivity|].
  cbn [flat_map map filter duration create_audiomap.backing_obj].
  destruct (MP3_info_length w _); cbn [List.length app]; now rewrite IH.
Qed.

Lemma warnings_in (w : World) (l : list string) (line : string) :
  In line (create_audiomap.backing_warnings w l) <->
  exists f e,
    In f l /\ is_mp3 f = true
    /\ MP3_info_length w (create_audiomap.backing_tracks_dir ++ "/" ++ f)
       = inl e
    /\ line = create_audiomap.warning f e.
Proof.
  unfold create_audiomap.backing_warnings. rewrite in_flat_map. split.
  - intros [f [Hf Hl]]. apply filter_In in Hf as [Hf Hm].
    destruct (MP3_info_length w _) as [e|d] eqn:E; [|destruct Hl].
    destruct Hl as [<-|[]]. now exists f, e.
  - intros [f [e [Hf [Hm [He ->]]]]]. exists f.
    split; [apply filter_In; now split|]. rewrite He. now left.
Qed.

(** What a completed run of [create_audiomap.py] has done. *)
Lemma audiomap_completed (w : World) (st st' : State)
    (filenames backing_filenames : list string) :
  listdir w create_audiomap.sound_dir = inr filenames ->
  listdir w create_audiomap.backing_tracks_dir = inr backing_filenames ->
  create_audiomap.main w st = (inr tt, st') ->
  let backing_tracks :=
    Py.sort_by bt_audio
      (create_audiomap.backing_entries w backing_filenames) in
  let soundlist := create_audiomap.soundlist filenames in
  st' = printed [create_audiomap.summary backing_tracks soundlist]
          (saved create_audiomap.output_filename
             (dumps w (create_audiomap.audiomap backing_tracks soundlist))
             (printed
                (create_audiomap.backing_warnings w backing_filenames) st)).
Proof.
  intros Hs Hb. rewrite audiomap_main_run, Hs, Hb.
  destruct (first_failure _ _) as [[done e]|]; [discriminate|].
  cbv zeta. destruct (open_error w _); [discriminate|].
  destruct (print_error w _); [discriminate|].
  intros H. now injection H as <-.
Qed.

(** X7.  A completed run of [create_audiomap.py] has printed the
    warnings followed by the summary line and nothing else: there is one
    warning for every listed [.mp3] file the MP3 reader raised on, as
    many warnings as the manifest has entries with a null duration, and
    no warning for anything else. *)
Theorem one_warning_per_null_duration (w : World) (st st' : State)
    (filenames backing_filenames : list string) :
  listdir w create_audiomap.sound_dir = inr filenames ->
  listdir w create_audiomap.backing_tracks_dir = inr backing_filenames ->
  create_audiomap.main w st = (inr tt, st') ->
  exists backing_tracks warnings,
    read_file create_audiomap.output_filename (files st')
    = Some (dumps w (create_audiomap.audiomap backing_tracks
                       (create_audiomap.soundlist filenames)))
    /\ stdout st'
       = (stdout st ++ warnings
          ++ [create_audiomap.summary backing_tracks
                (create_audiomap.soundlist filenames)])%list
    /\ List.length warnings = List.length (null_durations backing_tracks)
    /\ (forall line,
          In line warnings <->
          exists f e,
            In f backing_filenames /\ is_mp3 f = true
            /\ MP3_info_length w
                 (create_audiomap.backing_tracks_dir ++ "/" ++ f) = inl e
            /\ line = create_audiomap.warning f e).
Proof.
  intros Hs Hb Hrun.
  rewrite (audiomap_completed w st st' _ _ Hs Hb Hrun).
  exists (Py.sort_by bt_audio
            (create_audiomap.backing_entries w backing_filenames)).
  exists (create_audiomap.backing_warnings w backing_filenames).
  split; [cbn [files printed]; apply read_saved|].
  split; [|split].
  - cbn [stdout printed saved]. now rewrite app_assoc.
  - rewrite warnings_count. unfold null_durations.
    apply Permutation_length, filter_perm, Permutation_sym, sort_by_perm.
  - apply warnings_in.
Qed.

Lemma one_warning_per_null_duration_witness :
  exists backing_tracks warnings,
    stdout (snd (create_audiomap.main Examples.extended_world
                   Examples.empty_state))
    = ([] ++ warnings
       ++ [create_audiomap.summary backing_tracks
             (create_audiomap.soundlist
                ["kick.wav"; "kick__icon.png"; "kick__icon.svg";
                 "snare.wav"])])%list
    /\ List.length warnings = List.length (null_durations backing_tracks).
Proof.
  destruct (one_warning_per_null_duration Examples.extended_world
              Examples.empty_state
              (snd (create_audiomap.main Examples.extended_world
                      Examples.empty_state))
              ["kick.wav"; "kick__icon.png"; "kick__icon.svg"; "snare.wav"]
              ["loop.mp3"; "notes.txt"; "broken.mp3"]
              eq_refl eq_refl eq_refl)
    as [bts [ws [_ [Hout [Hlen _]]]]].
  exists bts, ws. split; assumption.
Defined.

(** ** What a run prints, writes and leaves alone *)

(** X8.  The summary line gives the number of [.wav] filenames of the
    sound listing (and, in [create_audiomap.py], the number of [.mp3]
    filenames of the backing-track listing): a completed run of
    [create_soundlist.py] has printed that line and nothing else, one of
    [create_audiomap.py] has printed it last. *)
Theorem summary_counts_the_files (w : World) (st st' : State) :
  (forall filenames,
      listdir w create_soundlist.sound_dir = inr filenames ->
      create_soundlist.main w st = (inr tt, st') ->
      stdout st'
      = (stdout st
         ++ [("Created soundlist.json with "
              ++ Py.str_of_nat (List.length (filter is_wav filenames))
              ++ " sounds")%string])%list)
  /\ (forall filenames backing_filenames,
        listdir w create_audiomap.sound_dir = inr filenames ->
        listdir w create_audiomap.backing_tracks_dir
        = inr backing_filenames ->
        create_audiomap.main w st = (inr tt, st') ->
        exists warnings,
          stdout st'
          = (stdout st ++ warnings
             ++ [("Created audiomap.json with "
                  ++ Py.str_of_nat
                       (List.length (filter is_mp3 backing_filenames))
                  ++ " backing tracks and "
                  ++ Py.str_of_nat (List.length (filter is_wav filenames))
                  ++ " sounds")%string])%list).
Proof.
  split.
  - intros l Hl. rewrite soundlist_main_run, Hl.
    destruct (open_error w _); [discriminate|]. cbv zeta.
    destruct (print_error w _); [discriminate|].
    intros H. injection H as <-. cbn [stdout printed saved].
    unfold create_soundlist.soundlist. now rewrite sorted_soundlist_length.
  - intros l b Hl Hb Hrun.
    rewrite (audiomap_completed w st st' _ _ Hl Hb Hrun).
    exists (create_audiomap.backing_warnings w b).
    cbn [stdout printed saved].
    unfold create_audiomap.summary, create_audiomap.soundlist.
    rewrite sorted_soundlist_length, sort_by_length.
    unfold create_audiomap.backing_entries. rewrite length_map.
    now rewrite app_assoc.
Qed.

Lemma summary_counts_the_files_witness :
  stdout (snd (create_soundlist.main Examples.simple_world
                 Examples.empty_state))
  = ([] ++ [("Created soundlist.json with "
             ++ Py.str_of_nat
                  (List.length (filter is_wav Examples.kick_snare))
             ++ " sounds")%string])%list.
Proof.
  apply (proj1 (summary_counts_the_files Examples.simple_world
                  Examples.empty_state
                  (snd (create_soundlist.main Examples.simple_world
                          Examples.empty_state)))
           Examples.kick_snare);
    reflexivity.
Defined.

(** X9.  Whatever happens, a run changes no file other than its output
    manifest. *)
Theorem other_files_untouched (w : World) (st : State) (other : string) :
  (other <> create_soundlist.output_filename ->
   read_file other (files (snd (create_soundlist.main w st)))
   = read_file other (files st))
  /\ (other <> create_audiomap.output_filename ->
      read_file other (files (snd (create_audiomap.main w st)))
      = read_file other (files st)).
Proof.
  split; intros Hne.
  - rewrite soundlist_main_run.
    destruct (listdir w _); [reflexivity|].
    destruct (open_error w _); [reflexivity|]. cbv zeta.
    destruct (print_error w _); cbn [snd files printed saved];
      now rewrite read_set_file_other.
  - rewrite audiomap_main_run.
    destruct (listdir w create_audiomap.sound_dir); [reflexivity|].
    destruct (listdir w create_audiomap.backing_tracks_dir); [reflexivity|].
    destruct (first_failure _ _) as [[done e]|]; [reflexivity|].
    cbv zeta. destruct (open_error w _); [reflexivity|].
    destruct (print_error w _); cbn [snd files printed saved];
      now rewrite read_set_file_other.
Qed.

Lemma other_files_untouched_witness :
  let st := {| stdout := [];
               files := [("audiomap.json", "{}"); ("notes.md", "keep")];
               open_handles := [] |} in
  read_file "notes.md"
    (files (snd (create_audiomap.main Examples.extended_world st)))
  = read_file "notes.md" (files st).
Proof.
  cbv zeta.
  apply (proj2 (other_files_untouched Examples.extended_world _ "notes.md")).
  discriminate.
Defined.

(** X10.  When the output file cannot be opened the run ends with an
    exception and no file has been changed or opened.
    [create_soundlist.py] has then done nothing at all;
    [create_audiomap.py] has printed warnings for unreadable [.mp3]
    files and nothing else and, unless printing one of them raised
    first, it has printed all of them and the exception is the one of
    [open]. *)
Theorem open_failure_fatal (w : World) (st : State) (e : Exception) :
  (forall filenames,
      listdir w create_soundlist.sound_dir = inr filenames ->
      open_error w create_soundlist.output_filename = Some e ->
      create_soundlist.main w st = (inl e, st))
  /\ (forall filenames backing_filenames,
        listdir w create_audiomap.sound_dir = inr filenames ->
        listdir w create_audiomap.backing_tracks_dir
        = inr backing_filenames ->
        open_error w create_audiomap.output_filename = Some e ->
        exists e0 warnings,
          create_audiomap.main w st = (inl e0, printed warnings st)
          /\ files (printed warnings st) = files st
          /\ open_handles (printed warnings st) = open_handles st
          /\ (forall line,
                In line warnings ->
                exists f e',
                  In f backing_filenames /\ is_mp3 f = true
                  /\ MP3_info_length w
                       (create_audiomap.backing_tracks_dir ++ "/" ++ f)
                     = inl e'
                  /\ line = create_audiomap.warning f e')
          /\ ((forall line, print_error w line = None) ->
              e0 = e
              /\ forall f e',
                   In f backing_filenames -> is_mp3 f = true ->
                   MP3_info_length w
                     (create_audiomap.backing_tracks_dir ++ "/" ++ f)
                   = inl e' ->
                   In (create_audiomap.warning f e') warnings)).
Proof.
  split.
  - intros l Hl Ho. now rewrite soundlist_main_run, Hl, Ho.
  - intros l b Hl Hb Ho. rewrite audiomap_main_run, Hl, Hb, Ho.
    destruct (first_failure _ _) as [[done e0]|] eqn:E.
    + exists e0, done. repeat split.
      * intros line Hline. apply (warnings_in w b).
        apply first_failure_some in E as [Hin _]. now apply Hin.
      * apply first_failure_some in E as [_ [line [_ He]]].
        rewrite H in He. discriminate.
      * apply first_failure_some in E as [_ [line [_ He]]].
        rewrite H in He. discriminate.
    + cbv zeta. exists e, (create_audiomap.backing_warnings w b).
      repeat split.
      * intros line Hline. now apply (warnings_in w b).
      * intros f e' Hf Hm He. apply (warnings_in w b). now exists f, e'.
Qed.

Lemma open_failure_fatal_witness :
  exists e0 warnings,
    create_audiomap.main
      (read_only Examples.extended_world "[Errno 13] Permission denied")
      Examples.empty_state
    = (inl e0, printed warnings Examples.empty_state)
    /\ files (printed warnings Examples.empty_state) = [].
Proof.
  destruct (proj2 (open_failure_fatal
                     (read_only Examples.extended_world
                        "[Errno 13] Permission denied")
                     Examples.empty_state "[Errno 13] Permission denied")
              ["kick.wav"; "kick__icon.png"; "kick__icon.svg"; "snare.wav"]
              ["loop.mp3"; "notes.txt"; "broken.mp3"]
              eq_refl eq_refl eq_refl)
    as [e0 [ws [Hrun [Hfiles _]]]].
  exists e0, ws. split; [exact Hrun | exact Hfiles].
Defined.

Lemma backing_entries_ext (w : World)
    (lengths : string -> Exception + float) (l : list string) :
  (forall f, In f l -> is_mp3 f = true ->
     lengths (create_audiomap.backing_tracks_dir ++ "/" ++ f)
     = MP3_info_length w (create_audiomap.backing_tracks_dir ++ "/" ++ f)) ->
  create_audiomap.backing_entries (with_durations w lengths) l
  = create_audiomap.backing_entries w l
  /\ create_audiomap.backing_warnings (with_durations w lengths) l
     = create_audiomap.backing_warnings w l.
Proof.
  intros Hsame.
  unfold create_audiomap.backing_entries, create_audiomap.backing_warnings,
    create_audiomap.recorded_duration.
  change (MP3_info_length (with_durations w lengths)) with lengths.
  assert (H : forall f, In f (filter (fun f => Py.endswith f ".mp3") l) ->
                lengths (create_audiomap.backing_tracks_dir ++ "/" ++ f)
                = MP3_info_length w
                    (create_audiomap.backing_tracks_dir ++ "/" ++ f)).
  { intros f Hf. apply filter_In in Hf as [Hf Hm]. now apply Hsame. }
  induction (filter (fun f => Py.endswith f ".mp3") l) as [|f fs IH];
    [now split|].
  cbn [map flat_map]. rewrite (H f (or_introl eq_refl)).
  destruct IH as [IH1 IH2]; [intros g Hg; apply H; now right|].
  now rewrite IH1, IH2.
Qed.

(** X11.  The MP3 reader is asked about the listed [.mp3] files of the
    backing-track directory and about nothing else: a run of
    [create_audiomap.py] is the same in any world whose reader answers
    alike on those paths. *)
Theorem durations_read_for_listed_mp3_only (w : World)
    (lengths : string -> Exception + float) (st : State) :
  (forall backing_filenames f,
      listdir w create_audiomap.backing_tracks_dir = inr backing_filenames ->
      In f backing_filenames -> is_mp3 f = true ->
      lengths (create_audiomap.backing_tracks_dir ++ "/" ++ f)
      = MP3_info_length w (create_audiomap.backing_tracks_dir ++ "/" ++ f)) ->
  create_audiomap.main (with_durations w lengths) st
  = create_audiomap.main w st.
Proof.
  intros Hsame. rewrite !audiomap_main_run.
  change (listdir (with_durations w lengths)) with (listdir w).
  change (open_error (with_durations w lengths)) with (open_error w).
  change (print_error (with_durations w lengths)) with (print_error w).
  destruct (listdir w create_audiomap.sound_dir) as [e|l]; [reflexivity|].
  destruct (listdir w create_audiomap.backing_tracks_dir) as [e|b];
    [reflexivity|].
  destruct (backing_entries_ext w lengths b) as [He Hw];
    [intros f; now apply Hsame|].
  cbv zeta. rewrite He, Hw.
  destruct (first_failure _ _) as [[done e]|]; [reflexivity|].
  destruct (open_error w _); [reflexivity|].
  destruct (print_error w _); reflexivity.
Qed.

Lemma durations_read_for_listed_mp3_only_witness :
  let lengths := fun p : string =>
    if p =? "../assets/backing_tracks/notes.txt"
    then inr 3.5%float
    else MP3_info_length Examples.extended_world p in
  create_audiomap.main (with_durations Examples.extended_world lengths)
    Examples.empty_state
  = create_audiomap.main Examples.extended_world Examples.empty_state.
Proof.
  cbv zeta.
  apply (durations_read_for_listed_mp3_only Examples.extended_world).
  intros b f Hb Hf Hm. injection Hb as <-.
  destruct Hf as [<-|[<-|[<-|[]]]];
    [reflexivity | discriminate Hm | reflexivity].
Defined.

Lemma soundlist_without_wav (icon_root : string) (filenames : list string) :
  filter is_wav filenames = [] -> sorted_soundlist icon_root filenames = [].
Proof.
  intros H. unfold sorted_soundlist. now rewrite sound_loop_closed, H.
Qed.

(** X12.  A listing without any [.wav] filename, an empty directory
    included, is no error: when the summary line can be printed,
    [create_soundlist.py] writes the empty array [[]] and reports 0
    sounds; [create_audiomap.py], when there is no [.mp3] filename
    either, writes an object with two empty arrays, prints no warning
    and reports 0 backing tracks and 0 sounds. *)
Theorem nothing_to_list (w : World) (st : State) :
  (forall filenames,
      listdir w create_soundlist.sound_dir = inr filenames ->
      open_error w create_soundlist.output_filename = None ->
      print_error w "Created soundlist.json with 0 sounds" = None ->
      filter is_wav filenames = [] ->
      exists st',
        create_soundlist.main w st = (inr tt, st')
        /\ read_file create_soundlist.output_filename (files st')
           = Some "[]"
        /\ stdout st'
           = (stdout st ++ ["Created soundlist.json with 0 sounds"])%list)
  /\ (forall filenames backing_filenames,
        listdir w create_audiomap.sound_dir = inr filenames ->
        listdir w create_audiomap.backing_tracks_dir
        = inr backing_filenames ->
        open_error w create_audiomap.output_filename = None ->
        print_error w
          "Created audiomap.json with 0 backing tracks and 0 sounds"
        = None ->
        filter is_wav filenames = [] ->
        filter is_mp3 backing_filenames = [] ->
        exists st',
          create_audiomap.main w st = (inr tt, st')
          /\ read_file create_audiomap.output_filename (files st')
             = Some ("{" ++ newline_indent 1
                     ++ encode_basestring_ascii w "backing_tracks"
                     ++ ": []," ++ newline_indent 1
                     ++ encode_basestring_ascii w "sounds"
                     ++ ": []" ++ newline ++ "}")
          /\ stdout st'
             = (stdout st
                ++ ["Created audiomap.json with 0 backing tracks and 0 sounds"]
               )%list).
Proof.
  split.
  - intros l Hl Ho Hp Hw. rewrite soundlist_main_run, Hl, Ho. cbv zeta.
    unfold create_soundlist.soundlist.
    rewrite (soundlist_without_wav _ _ Hw).
    change ("Created soundlist.json with "
            ++ Py.str_of_nat (List.length (@nil SoundEntry)) ++ " sounds")
      with "Created soundlist.json with 0 sounds".
    rewrite Hp. eexists. split; [reflexivity|].
    split; [apply read_saved | reflexivity].
  - intros l b Hl Hb Ho Hp Hw Hm. rewrite audiomap_main_run, Hl, Hb, Ho.
    unfold create_audiomap.soundlist.
    rewrite (soundlist_without_wav _ _ Hw).
    unfold create_audiomap.backing_entries, create_audiomap.backing_warnings.
    fold is_mp3. rewrite Hm.
    cbn [map flat_map Py.sort_by fold_right first_failure]. cbv zeta.
    change (create_audiomap.summary [] [])
      with "Created audiomap.json with 0 backing tracks and 0 sounds".
    rewrite Hp, printed_nil.
    eexists. split; [reflexivity|]. split; [|reflexivity].
    cbn [files printed]. rewrite read_saved. f_equal.
    unfold dumps, create_audiomap.audiomap. cbn [encode map].
    cbn [append]. do 2 f_equal.
    rewrite !append_assoc. reflexivity.
Qed.

Lemma nothing_to_list_witness :
  exists st',
    create_soundlist.main
      (relisted Examples.simple_world
         (fun _ => inr ["kick__icon.png"; "README.txt"]))
      Examples.empty_state
    = (inr tt, st')
    /\ read_file create_soundlist.output_filename (files st') = Some "[]"
    /\ stdout st' = ([] ++ ["Created soundlist.json with 0 sounds"])%list.
Proof.
  apply (proj1 (nothing_to_list
                  (relisted Examples.simple_world
                     (fun _ => inr ["kick__icon.png"; "README.txt"]))
                  Examples.empty_state)
           ["kick__icon.png"; "README.txt"]);
    reflexivity.
Defined.

(** X13.  Every [audio] path of a manifest has the extension of its kind:
    a sound entry's path ends in [.wav], and a backing-track entry's path
    starts with [assets/backing_tracks/] and ends in [.mp3]. *)
Theorem audio_paths_keep_their_extension (w : World) (st : State)
    (filenames backing_filenames : list string) :
  (forall e, In e (create_soundlist.soundlist filenames) ->
             Py.endswith (audio e) ".wav" = true)
  /\ (forall e, In e (create_audiomap.soundlist filenames) ->
                Py.endswith (audio e) ".wav" = true)
  /\ (forall e,
        In e (match fst (create_audiomap.sorted_backing_tracks w
                           backing_filenames st) with
              | inr backing_tracks => backing_tracks
              | inl _ => []
              end) ->
        prefix "assets/backing_tracks/" (bt_audio e) = true
        /\ Py.endswith (bt_audio e) ".mp3" = true).
Proof.
  assert (Hsound : forall icon_root e,
             In e (sorted_soundlist icon_root filenames) ->
             Py.endswith (audio e) ".wav" = true).
  { intros icon_root e He.
    apply sorted_soundlist_in in He as [f [_ [Hw ->]]].
    apply endswith_split in Hw as [p ->]. cbn [audio sound_obj].
    rewrite <- append_assoc. apply endswith_append. }
  split; [apply Hsound|]. split; [apply Hsound|].
  intros e. rewrite sorted_backing_tracks_run.
  destruct (first_failure _ _) as [[done e0]|]; cbn [fst]; [intros []|].
  intros He.
  apply sorted_backing_in in He as [f [_ [Hm ->]]].
  cbn [bt_audio create_audiomap.backing_obj].
  split; [apply prefix_append|].
  apply endswith_split in Hm as [p ->].
  rewrite <- append_assoc. apply endswith_append.
Qed.

Lemma audio_paths_keep_their_extension_witness :
  Py.endswith (audio {| audio := "sounds/snare.wav"; icon := None |}) ".wav"
  = true.
Proof.
  apply (proj1 (audio_paths_keep_their_extension Examples.simple_world
                  Examples.empty_state Examples.kick_snare [])).
  vm_compute. right. left. reflexivity.
Defined.



(** ** Order of the entries *)

Lemma sort_by_ext {A : Type} (key key' : A -> string) (l : list A) :
  (forall a b, (key a <? key b) = (key' a <? key' b)) ->
  Py.sort_by key l = Py.sort_by key' l.
Proof.
  intros Hk.
  assert (Hins : forall x r, Py.insert_by key x r = Py.insert_by key' x r).
  { intros x r. induction r as [|y r IHr]; [reflexivity|].
    cbn [Py.insert_by]. now rewrite Hk, IHr. }
  induction l as [|x l IH]; [reflexivity|].
  unfold Py.sort_by in *. cbn [fold_right]. now rewrite IH, Hins.
Qed.

(** X15.  The entries come in the byte order of the filenames themselves:
    the [audio] paths of the sound entries are the [.wav] filenames of
    the listing, sorted, each behind [sounds/]; those of the backing
    tracks, whenever the loop and the sort return, are the sorted [.mp3]
    filenames, each behind [assets/backing_tracks/]. *)
Theorem entries_in_filename_order (w : World) (st : State)
    (filenames backing_filenames : list string) :
  map audio (create_soundlist.soundlist filenames)
  = map (fun f => "sounds/" ++ f)
        (Py.sort_by (fun f => f) (filter is_wav filenames))
  /\ map audio (create_audiomap.soundlist filenames)
     = map (fun f => "sounds/" ++ f)
           (Py.sort_by (fun f => f) (filter is_wav filenames))
  /\ match fst (create_audiomap.sorted_backing_tracks w
                  backing_filenames st) with
     | inr backing_tracks =>
         map bt_audio backing_tracks
         = map (fun f => "assets/backing_tracks/" ++ f)
               (Py.sort_by (fun f => f) (filter is_mp3 backing_filenames))
     | inl e => exists line, print_error w line = Some e
     end.
Proof.
  assert (Hsound : forall icon_root,
             map audio (sorted_soundlist icon_root filenames)
             = map (fun f => "sounds/" ++ f)
                   (Py.sort_by (fun f => f) (filter is_wav filenames))).
  { intros icon_root. unfold sorted_soundlist. rewrite sound_loop_closed.
    rewrite (sort_by_map (fun f => "sounds/" ++ f) audio
               (sound_obj icon_root filenames)) by reflexivity.
    rewrite map_map. cbn [audio sound_obj].
    f_equal. apply sort_by_ext. reflexivity. }
  split; [apply Hsound|]. split; [apply Hsound|].
  rewrite sorted_backing_tracks_run.
  destruct (first_failure _ _) as [[done e]|] eqn:E; cbn [fst].
  { apply first_failure_some in E as [_ [line [_ He]]]. now exists line. }
  unfold create_audiomap.backing_entries.
  rewrite (sort_by_map (fun f => "assets/backing_tracks/" ++ f) bt_audio
             (fun f => create_audiomap.backing_obj f
                         (create_audiomap.recorded_duration w f)))
    by reflexivity.
  rewrite map_map. cbn [bt_audio create_audiomap.backing_obj].
  f_equal. apply sort_by_ext. reflexivity.
Qed.

(** ** Unreadable tracks *)

(** X16.  In [create_audiomap.py], when reading the duration of a listed
    [.mp3] file raises and standard output takes every line, the run
    completes: the warning naming the file and the cause is printed, the
    manifest written holds an entry for that file with a null duration,
    an entry for every [.mp3] file of the listing, and an entry for
    every [.wav] file of the sound listing. *)
Theorem unreadable_track_skipped_when_printed (w : World) (st : State)
    (filenames backing_filenames : list string) (filename : string)
    (e : Exception) :
  listdir w create_audiomap.sound_dir = inr filenames ->
  listdir w create_audiomap.backing_tracks_dir = inr backing_filenames ->
  open_error w create_audiomap.output_filename = None ->
  (forall line, print_error w line = None) ->
  In filename backing_filenames ->
  Py.endswith filename ".mp3" = true ->
  MP3_info_length w (create_audiomap.backing_tracks_dir ++ "/" ++ filename)
  = inl e ->
  exists backing_tracks st',
    create_audiomap.main w st = (inr tt, st')
    /\ In (create_audiomap.warning filename e) (stdout st')
    /\ read_file create_audiomap.output_filename (files st')
       = Some (dumps w (create_audiomap.audiomap backing_tracks
                          (create_audiomap.soundlist filenames)))
    /\ In (create_audiomap.backing_obj filename None) backing_tracks
    /\ (forall g, In g backing_filenames -> Py.endswith g ".mp3" = true ->
          In (create_audiomap.backing_obj g
                (create_audiomap.recorded_duration w g)) backing_tracks)
    /\ (forall g, In g filenames -> Py.endswith g ".wav" = true ->
          exists s, In s (create_audiomap.soundlist filenames)
                    /\ audio s = "sounds/" ++ g).
Proof.
  intros Hs Hb Ho Hp Hf Hmp3 He.
  rewrite audiomap_main_run, Hs, Hb, Ho.
  rewrite (proj2 (first_failure_none _ _)) by (intros line _; apply Hp).
  cbv zeta. rewrite Hp.
  exists (Py.sort_by bt_audio
            (create_audiomap.backing_entries w backing_filenames)).
  eexists. split; [reflexivity|].
  split; [|split; [|split; [|split]]].
  - cbn [stdout printed saved]. apply in_or_app. left. apply in_or_app.
    right. now apply backing_warnings_in.
  - cbn [files printed]. apply read_saved.
  - replace None with (create_audiomap.recorded_duration w filename)
      by (unfold create_audiomap.recorded_duration; now rewrite He).
    now apply backing_entries_in.
  - intros g Hg Hg3. now apply backing_entries_in.
  - intros g Hg Hgw.
    exists (sound_obj "assets/sounds/" filenames g). split; [|reflexivity].
    apply sorted_soundlist_in. exists g. repeat split; assumption.
Qed.

Lemma unreadable_track_skipped_when_printed_witness :
  let w := with_stdout Examples.extended_world (fun _ => None) in
  exists backing_tracks st',
    create_audiomap.main w Examples.empty_state = (inr tt, st')
    /\ In (create_audiomap.warning "broken.mp3" "can't sync to MPEG frame")
          (stdout st')
    /\ In (create_audiomap.backing_obj "broken.mp3" None) backing_tracks.
Proof.
  cbv zeta.
  destruct (unreadable_track_skipped_when_printed
              (with_stdout Examples.extended_world (fun _ => None))
              Examples.empty_state
              ["kick.wav"; "kick__icon.png"; "kick__icon.svg"; "snare.wav"]
              ["loop.mp3"; "notes.txt"; "broken.mp3"]
              "broken.mp3" "can't sync to MPEG frame"
              eq_refl eq_refl eq_refl (fun _ => eq_refl)
              (or_intror (or_intror (or_introl eq_refl))) eq_refl eq_refl)
    as [bts [st' [Hrun [Hw [_ [Hin _]]]]]].
  exists bts, st'. repeat split; assumption.
Defined.
